(** * Observation-point chains of the OFF wake simulator (off/observation_points.py,
    off/windfarm.py), shallow embedding.

    Python floats and numpy float64 arrays are modelled over an abstract scalar
    type with the operations the code uses ([Scalar]).  Two instances are given:
    IEEE binary64 through Rocq's primitive floats (the arithmetic the program
    really runs, with numpy's [cos]/[sin] left as parameters since libm is not
    part of the repository), and exact real arithmetic.

    A Python object is its instance [__dict__] (an association list from
    attribute names to values); methods run in a state/exception monad over it.
    The base class [States] (off/states.py) and [OFFTools.deg2rad]
    (off/utils.py) are not in the sources and are modelled from the spec. *)

From Stdlib Require Import List String ZArith Floats Reals Lra Lia.
Import ListNotations.

(** ** Scalars *)

Class Scalar (F : Type) := {
  f_add : F -> F -> F;
  f_sub : F -> F -> F;
  f_mul : F -> F -> F;
  f_div : F -> F -> F;
  f_of_int : nat -> F;      (* numpy's int64 -> float64 conversion *)
  f_pi : F;                 (* np.pi *)
  np_cos : F -> F;
  np_sin : F -> F
}.

Section Program.

Context {F : Type} `{SF : Scalar F}.

Definition f_zero : F := f_of_int 0.

(** ** numpy two-dimensional arrays *)

Record ndarray := mk_ndarray { ncols : nat; rows : list (list F) }.

Definition nrows (a : ndarray) : nat := List.length (rows a).

Definition zeros (n w : nat) : ndarray :=
  mk_ndarray w (repeat (repeat f_zero w) n).

(** [a[:, j]] read as a list *)
Definition column (j : nat) (a : ndarray) : list F :=
  map (fun r => nth j r f_zero) (rows a).

(** [a[:, lo:hi]] *)
Definition slice_cols (lo hi : nat) (a : ndarray) : ndarray :=
  mk_ndarray (Nat.min hi (ncols a) - lo)
             (map (fun r => firstn (hi - lo) (skipn lo r)) (rows a)).

Fixpoint replace_at (j : nat) (x : F) (r : list F) : list F :=
  match r, j with
  | [], _ => []
  | _ :: t, O => x :: t
  | y :: t, S j' => y :: replace_at j' x t
  end.

(** write [v] into column [j], row by row *)
Fixpoint write_col (j : nat) (v : list F) (rs : list (list F)) : list (list F) :=
  match rs, v with
  | r :: rs', x :: v' => replace_at j x r :: write_col j v' rs'
  | _, _ => rs
  end.

Inductive exc :=
| AttributeError (attr : string)
| TypeError
| IndexError
| ValueError.

Inductive result (A : Type) :=
| Ok (x : A)
| Err (e : exc).
Arguments Ok {A} x.
Arguments Err {A} e.

(** [a[:, j] = v] for a one-dimensional array [v]: numpy checks the column
    index, then broadcasts [v] (length [nrows] or length 1) *)
Definition setitem_col (j : nat) (v : list F) (a : ndarray) : result ndarray :=
  if ncols a <=? j then Err IndexError
  else if List.length v =? nrows a then Ok (mk_ndarray (ncols a) (write_col j v (rows a)))
  else if List.length v =? 1
       then Ok (mk_ndarray (ncols a) (write_col j (repeat (hd f_zero v) (nrows a)) (rows a)))
  else Err ValueError.

(** [a[:, j] = x] for a scalar [x] *)
Definition setitem_col_scalar (j : nat) (x : F) (a : ndarray) : result ndarray :=
  if ncols a <=? j then Err IndexError
  else Ok (mk_ndarray (ncols a) (write_col j (repeat x (nrows a)) (rows a))).

(** the values [setitem_col] writes into [m] rows: [v] itself when it has
    [m] entries, else its one entry repeated *)
Definition broadcast_to (m : nat) (v : list F) : list F :=
  if List.length v =? m then v else repeat (hd f_zero v) m.

(** [np.arange(n)] *)
Definition arange (n : Z) : list nat := seq 0 (Z.to_nat n).

(** ** Python objects *)

Inductive pyval :=
| PInt (z : Z)
| PArr (a : ndarray).

Definition pyobj := list (string * pyval).

Fixpoint lookup (d : pyobj) (name : string) : option pyval :=
  match d with
  | [] => None
  | (k, v) :: d' => if String.eqb k name then Some v else lookup d' name
  end.

Definition set_attr_dict (d : pyobj) (name : string) (v : pyval) : pyobj :=
  (name, v) :: filter (fun p => negb (String.eqb (fst p) name)) d.

(** state/exception monad of a method call on [self] *)
Definition M (A : Type) := pyobj -> pyobj * result A.

Definition ret {A} (x : A) : M A := fun o => (o, Ok x).
Definition raise {A} (e : exc) : M A := fun o => (o, Err e).
Definition bind {A B} (m : M A) (k : A -> M B) : M B :=
  fun o => match m o with
           | (o', Ok x) => k x o'
           | (o', Err e) => (o', Err e)
           end.
Definition lift {A} (r : result A) : M A :=
  match r with Ok x => ret x | Err e => raise e end.

Notation "x <- m ;; k" := (bind m (fun x => k)) (at level 61, m at next level, right associativity).
Notation "m ;;; k" := (bind m (fun _ => k)) (at level 61, right associativity).

Definition getattr (name : string) : M pyval :=
  fun o => match lookup o name with
           | Some v => (o, Ok v)
           | None => (o, Err (AttributeError name))
           end.

Definition setattr (name : string) (v : pyval) : M unit :=
  fun o => (set_attr_dict o name v, Ok tt).

Definition get_int (name : string) : M Z :=
  v <- getattr name ;; match v with PInt z => ret z | PArr _ => raise TypeError end.

Definition get_arr (name : string) : M ndarray :=
  v <- getattr name ;; match v with PArr a => ret a | PInt _ => raise TypeError end.

(** [self.states[:, j] = v]: the array held by [self.states] is mutated in place *)
Definition assign_col (j : nat) (v : list F) : M unit :=
  a <- get_arr "states" ;; a' <- lift (setitem_col j v a) ;; setattr "states" (PArr a').

Definition assign_col_scalar (j : nat) (x : F) : M unit :=
  a <- get_arr "states" ;; a' <- lift (setitem_col_scalar j x a) ;; setattr "states" (PArr a').

(** ** Missing repository code *)

(** Modelled from the spec: [States.__init__] (off/states.py, not in the
    sources).  A chain of [number_of_time_steps] rows of [number_of_states]
    states, created zero-filled (spec §3, §8, §9). *)
Definition States_init (number_of_time_steps number_of_states : nat) : pyobj :=
  [("n_time_steps"%string, PInt (Z.of_nat number_of_time_steps));
   ("n_states"%string, PInt (Z.of_nat number_of_states));
   ("states"%string, PArr (zeros number_of_time_steps number_of_states))].

(** Modelled from the spec: [States.set_all_states] (off/states.py, not in the
    sources).  Replaces the whole table; a table whose shape is not exactly
    N x W fails with no mutation (spec §4.1, §7). *)
Definition set_all_states (new_states : ndarray) : M unit :=
  n <- get_int "n_time_steps" ;;
  w <- get_int "n_states" ;;
  if ((Z.of_nat (nrows new_states) =? n)%Z && (Z.of_nat (ncols new_states) =? w)%Z)%bool
  then setattr "states" (PArr new_states)
  else raise ValueError.

(** Modelled from the spec: [OFFTools.deg2rad] (off/utils.py, not in the
    sources), "convert wind_direction (degrees) to radians", written as numpy's
    [deg2rad] computes it. *)
Definition deg2rad (deg : F) : F := f_mul deg (f_div f_pi (f_of_int 180)).

(** ** off/observation_points.py *)

Record vec3 := mk_vec3 { rp0 : F; rp1 : F; rp2 : F }.

Definition FLORIDynOPs4 (number_of_time_steps : nat) : pyobj :=
  States_init number_of_time_steps 4.

Definition FLORIDynOPs6 (number_of_time_steps : nat) : pyobj :=
  States_init number_of_time_steps 6.

(** [return self.states[:, 0:3]] *)
Definition get_world_coord4 : M ndarray :=
  a <- get_arr "states" ;; ret (slice_cols 0 3 a).

(** [return self.op_list[:, 0:3]] *)
Definition get_world_coord6 : M ndarray :=
  a <- get_arr "op_list" ;; ret (slice_cols 0 3 a).

Definition init_all_states4 (wind_speed wind_direction : F) (rotor_pos : vec3)
    (time_step : F) : M unit :=
  n <- get_int "n_time_steps" ;;
  let dw := map (fun i => f_mul (f_of_int i) wind_speed) (arange n) in
  assign_col 0 (map (fun d => f_add (f_mul (np_cos (deg2rad wind_direction)) d) (rp0 rotor_pos)) dw) ;;;
  assign_col 1 (map (fun d => f_add (f_mul (np_sin (deg2rad wind_direction)) d) (rp1 rotor_pos)) dw) ;;;
  assign_col_scalar 2 (rp2 rotor_pos) ;;;
  assign_col 3 dw.

Definition init_all_states6 (wind_speed wind_direction : F) (rotor_pos : vec3)
    (time_step : F) : M unit :=
  n <- get_int "n_time_steps" ;;
  let dw := map (fun i => f_mul (f_of_int i) wind_speed) (arange n) in
  assign_col 0 (map (fun d => f_add (f_mul (np_cos (deg2rad wind_direction)) d) (rp0 rotor_pos)) dw) ;;;
  assign_col 1 (map (fun d => f_add (f_mul (np_sin (deg2rad wind_direction)) d) (rp1 rotor_pos)) dw) ;;;
  assign_col_scalar 2 (rp2 rotor_pos) ;;;
  assign_col 3 dw.

(** the rows [init_all_states4]/[init_all_states6] leave behind: columns 0, 1, 2
    and 3 written in that order, each as a list of (column, values) writes *)
Definition write_cols (ws : list (nat * list F)) (rs : list (list F)) : list (list F) :=
  fold_right (fun jv acc => write_col (fst jv) (snd jv) acc) rs ws.

(** [np.arange(n) * wind_speed] *)
Definition ramp (n : nat) (wind_speed : F) : list F :=
  map (fun i => f_mul (f_of_int i) wind_speed) (seq 0 n).

Definition init_writes (n : nat) (wind_speed wind_direction : F) (rotor_pos : vec3) :
    list (nat * list F) :=
  [(3, ramp n wind_speed);
   (2, repeat (rp2 rotor_pos) n);
   (1, map (fun d => f_add (f_mul (np_sin (deg2rad wind_direction)) d) (rp1 rotor_pos)) (ramp n wind_speed));
   (0, map (fun d => f_add (f_mul (np_cos (deg2rad wind_direction)) d) (rp0 rotor_pos)) (ramp n wind_speed))].

(** a chain object whose [n_time_steps] is [n] and whose [states] is the
    well-formed [n]-row array [a] *)
Definition chain_ok (o : pyobj) (n : nat) (a : ndarray) : Prop :=
  lookup o "n_time_steps" = Some (PInt (Z.of_nat n)) /\
  lookup o "states" = Some (PArr a) /\
  nrows a = n /\
  Forall (fun r => List.length r = ncols a) (rows a).

(** [b] has the shape of [a], the columns of [a] from [k] on, and rows as
    wide as [a]'s when [a]'s are all [ncols a] wide *)
Definition same_layout_from (k : nat) (a b : ndarray) : Prop :=
  ncols b = ncols a /\ nrows b = nrows a /\
  (forall j, k <= j -> column j b = column j a) /\
  (Forall (fun r => List.length r = ncols a) (rows a) ->
   Forall (fun r => List.length r = ncols b) (rows b)).

(** the [states] table of an object, when it holds an array *)
Definition states_of (o : pyobj) : option ndarray :=
  match lookup o "states" with Some (PArr a) => Some a | _ => None end.

End Program.

Arguments ndarray F : clear implicits.
Arguments pyval F : clear implicits.
Arguments pyobj F : clear implicits.
Arguments M F A : clear implicits.
Arguments vec3 F : clear implicits.
Arguments Ok {A} x.
Arguments Err {A} e.

(** ** off/windfarm.py *)

Section WindFarmModel.

Context {Turbine Settings : Type}.

Inductive wf_val :=
| WTurbines (l : list Turbine)
| WSettings (d : Settings)
| WInt (z : Z).

Fixpoint assoc_get {V} (d : list (string * V)) (name : string) : option V :=
  match d with
  | [] => None
  | (k, v) :: d' => if String.eqb k name then Some v else assoc_get d' name
  end.

Definition assoc_set {V} (d : list (string * V)) (name : string) (v : V) : list (string * V) :=
  (name, v) :: filter (fun p => negb (String.eqb (fst p) name)) d.

(** The class body: [time_step = -1]; [settings_sol: dict()] and
    [turbines: List[Turbine]] are bare annotations and bind nothing. *)
Definition WindFarm_class_dict : list (string * wf_val) :=
  [("time_step"%string, WInt (-1))].

(** [WindFarm(turbines, settings_sol)]: the instance [__dict__] after [__init__] *)
Definition WindFarm (turbines : list Turbine) (settings_sol : Settings) : list (string * wf_val) :=
  assoc_set (assoc_set [] "turbines" (WTurbines turbines)) "settings_sol" (WSettings settings_sol).

(** attribute lookup: instance dictionary first, then the class *)
Definition wf_getattr (self : list (string * wf_val)) (name : string) : option wf_val :=
  match assoc_get self name with
  | Some v => Some v
  | None => assoc_get WindFarm_class_dict name
  end.

End WindFarmModel.

Arguments wf_val Turbine Settings : clear implicits.

(** ** Scalar instances *)

(** IEEE binary64, as Python and numpy compute; [libm_cos] and [libm_sin] stand
    for numpy's [cos] and [sin]. *)
Definition float64 (libm_cos libm_sin : float -> float) : Scalar float := {|
  f_add := PrimFloat.add;
  f_sub := PrimFloat.sub;
  f_mul := PrimFloat.mul;
  f_div := PrimFloat.div;
  f_of_int := fun n => PrimFloat.of_uint63 (Uint63.of_Z (Z.of_nat n));
  f_pi := 0x1.921fb54442d18p+1%float;
  np_cos := libm_cos;
  np_sin := libm_sin
|}.

(** Exact real arithmetic. *)
#[global] Instance real_scalar : Scalar R := {|
  f_add := Rplus;
  f_sub := Rminus;
  f_mul := Rmult;
  f_div := Rdiv;
  f_of_int := INR;
  f_pi := PI;
  np_cos := cos;
  np_sin := sin
|}.


(** A stand-in libm for concrete runs: low-order Taylor polynomials, exact at
    0 as IEEE 754 requires of [cos] and [sin]. *)
Definition poly_cos (x : float) : float := (1 - x * x / 2)%float.
Definition poly_sin (x : float) : float := x.

(** ** Statements about a variant's [init_all_states] *)

(** The direction and height properties of spec §8, for one variant's
    [init_all_states] and a strict order [f_lt] on scalars: on a well-shaped
    chain, with [wind_speed > 0], at 0 degrees the OPs sit on [y = rotor_pos.y]
    with [x] strictly increasing, at 90 degrees on [x = rotor_pos.x] with [y]
    strictly increasing, and always at [z = rotor_pos.z]. *)
Definition direction_claim {F : Type} `{Scalar F} (f_lt : F -> F -> Prop)
    (init : F -> F -> vec3 F -> F -> M F unit) : Prop :=
  forall (o : pyobj F) n a0 ws wd rp ts a,
    chain_ok o n a0 -> 4 <= ncols a0 -> f_lt f_zero ws ->
    states_of (fst (init ws wd rp ts o)) = Some a ->
    (wd = f_of_int 0 ->
       (forall i, i < n -> nth i (column 1 a) f_zero = rp1 rp) /\
       (forall i j, i < j < n -> f_lt (nth i (column 0 a) f_zero) (nth j (column 0 a) f_zero))) /\
    (wd = f_of_int 90 ->
       (forall i, i < n -> nth i (column 0 a) f_zero = rp0 rp) /\
       (forall i j, i < j < n -> f_lt (nth i (column 1 a) f_zero) (nth j (column 1 a) f_zero))) /\
    (forall i, i < n -> nth i (column 2 a) f_zero = rp2 rp).

(** ** General lemmas *)

Section Lemmas.

Context {F : Type} `{SF : Scalar F}.

Lemma replace_at_length j x (r : list F) : List.length (replace_at j x r) = List.length r.
Proof. revert j; induction r as [|y r IH]; intros [|j]; simpl; auto. Qed.

Lemma nth_replace_at_other j k x (r : list F) d :
  k <> j -> nth k (replace_at j x r) d = nth k r d.
Proof.
  revert j k; induction r as [|y r IH]; intros [|j] [|k] Hne; simpl; auto.
  - congruence.
Qed.

Lemma nth_replace_at_same j x (r : list F) d :
  j < List.length r -> nth j (replace_at j x r) d = x.
Proof.
  revert j; induction r as [|y r IH]; intros [|j] Hj; simpl in *; try lia; auto.
  apply IH; lia.
Qed.

Lemma replace_at_comm j k x y (r : list F) :
  j <> k -> replace_at j x (replace_at k y r) = replace_at k y (replace_at j x r).
Proof.
  revert j k; induction r as [|z r IH]; intros [|j] [|k] Hne; simpl; auto.
  - congruence.
  - f_equal. apply IH. congruence.
Qed.

Lemma replace_at_idem j x y (r : list F) :
  replace_at j x (replace_at j y r) = replace_at j x r.
Proof. revert j; induction r as [|z r IH]; intros [|j]; simpl; f_equal; auto. Qed.

Lemma write_col_length j v (rs : list (list F)) :
  List.length (write_col j v rs) = List.length rs.
Proof. revert v; induction rs as [|r rs IH]; intros [|x v]; simpl; auto. Qed.

Lemma write_col_widths j v (rs : list (list F)) w :
  Forall (fun r => List.length r = w) rs ->
  Forall (fun r => List.length r = w) (write_col j v rs).
Proof.
  revert v; induction rs as [|r rs IH]; intros [|x v] H; simpl; auto.
  inversion H; subst. constructor; [now rewrite replace_at_length | auto].
Qed.

Lemma write_col_comm j k v u (rs : list (list F)) :
  j <> k -> write_col j v (write_col k u rs) = write_col k u (write_col j v rs).
Proof.
  intros Hne; revert v u; induction rs as [|r rs IH]; intros [|x v] [|y u]; simpl; auto.
  rewrite replace_at_comm by exact Hne. now rewrite IH.
Qed.

Lemma write_col_idem j v (rs : list (list F)) :
  write_col j v (write_col j v rs) = write_col j v rs.
Proof.
  revert v; induction rs as [|r rs IH]; intros [|x v]; simpl; auto.
  now rewrite replace_at_idem, IH.
Qed.

Lemma column_write_col_other j k v (rs : list (list F)) d :
  k <> j ->
  map (fun r => nth k r d) (write_col j v rs) = map (fun r => nth k r d) rs.
Proof.
  intros Hne; revert v; induction rs as [|r rs IH]; intros [|x v]; simpl; auto.
  now rewrite nth_replace_at_other, IH.
Qed.

Lemma column_write_col_same j v (rs : list (list F)) d :
  Forall (fun r => j < List.length r) rs -> List.length v = List.length rs ->
  map (fun r => nth j r d) (write_col j v rs) = v.
Proof.
  revert v; induction rs as [|r rs IH]; intros [|x v] Hw Hl; simpl in *; try discriminate; auto.
  inversion Hw; subst. rewrite nth_replace_at_same by assumption. f_equal; auto.
Qed.

Lemma write_cols_length ws (rs : list (list F)) :
  List.length (write_cols ws rs) = List.length rs.
Proof. induction ws as [|[j v] ws IH]; simpl; auto. now rewrite write_col_length. Qed.

Lemma write_cols_widths ws (rs : list (list F)) w :
  Forall (fun r => List.length r = w) rs ->
  Forall (fun r => List.length r = w) (write_cols ws rs).
Proof. induction ws as [|[j v] ws IH]; simpl; auto. intros; apply write_col_widths; auto. Qed.

Lemma write_col_write_cols j v ws (rs : list (list F)) :
  ~ In j (map fst ws) ->
  write_col j v (write_cols ws rs) = write_cols ws (write_col j v rs).
Proof.
  induction ws as [|[k u] ws IH]; simpl; intros Hn; auto.
  rewrite write_col_comm by (intro; apply Hn; auto). f_equal. apply IH; auto.
Qed.

(** a sequence of writes to distinct columns, applied twice, is applied once *)
Lemma write_cols_idem ws (rs : list (list F)) :
  NoDup (map fst ws) -> write_cols ws (write_cols ws rs) = write_cols ws rs.
Proof.
  revert rs; induction ws as [|[j v] ws IH]; simpl; intros rs Hnd; auto.
  inversion Hnd; subst.
  rewrite (write_col_write_cols j v ws (write_col j v (write_cols ws rs))) by assumption.
  rewrite write_col_idem.
  rewrite (write_col_write_cols j v ws rs) by assumption.
  now rewrite IH.
Qed.

End Lemmas.

Section Methods.

Context {F : Type} `{SF : Scalar F}.

Lemma filter_idem {A} (f : A -> bool) (l : list A) : filter f (filter f l) = filter f l.
Proof.
  induction l as [|x l IH]; simpl; auto.
  destruct (f x) eqn:Hf; simpl; [rewrite Hf; f_equal|]; auto.
Qed.

Lemma lookup_set_same (d : pyobj F) k v : lookup (set_attr_dict d k v) k = Some v.
Proof. unfold set_attr_dict; simpl. now rewrite String.eqb_refl. Qed.

Lemma lookup_filter_other (d : pyobj F) k k' :
  k <> k' -> lookup (filter (fun p => negb (String.eqb (fst p) k)) d) k' = lookup d k'.
Proof.
  intros Hne; induction d as [|[k0 v0] d IH]; simpl; auto.
  destruct (String.eqb k0 k) eqn:E0; simpl.
  - apply String.eqb_eq in E0; subst.
    apply String.eqb_neq in Hne. now rewrite Hne.
  - now rewrite IH.
Qed.

Lemma lookup_set_other (d : pyobj F) k k' v :
  k <> k' -> lookup (set_attr_dict d k v) k' = lookup d k'.
Proof.
  intros Hne; unfold set_attr_dict; simpl.
  destruct (String.eqb k k') eqn:E.
  - apply String.eqb_eq in E; contradiction.
  - now apply lookup_filter_other.
Qed.

Lemma set_attr_dict_twice (d : pyobj F) k v w :
  set_attr_dict (set_attr_dict d k v) k w = set_attr_dict d k w.
Proof.
  unfold set_attr_dict; simpl. rewrite String.eqb_refl; simpl.
  now rewrite filter_idem.
Qed.

Lemma bind_ok {A B} (m : M F A) (k : A -> M F B) o o' x :
  m o = (o', Ok x) -> bind m k o = k x o'.
Proof. unfold bind; intros ->; reflexivity. Qed.

Lemma get_int_ok (o : pyobj F) name z :
  lookup o name = Some (PInt z) -> get_int name o = (o, Ok z).
Proof. intros H; unfold get_int, bind, getattr; rewrite H; reflexivity. Qed.

Lemma assign_col_ok (o : pyobj F) j v a :
  lookup o "states" = Some (PArr a) -> j < ncols a -> List.length v = nrows a ->
  assign_col j v o =
  (set_attr_dict o "states" (PArr (mk_ndarray (ncols a) (write_col j v (rows a)))), Ok tt).
Proof.
  intros Hs Hj Hl.
  unfold assign_col, get_arr, getattr, bind, lift, setitem_col, setattr, ret.
  rewrite Hs.
  destruct (ncols a <=? j) eqn:E; [apply Nat.leb_le in E; lia|].
  rewrite Hl, Nat.eqb_refl. reflexivity.
Qed.

Lemma assign_col_scalar_ok (o : pyobj F) j x a :
  lookup o "states" = Some (PArr a) -> j < ncols a ->
  assign_col_scalar j x o =
  (set_attr_dict o "states"
     (PArr (mk_ndarray (ncols a) (write_col j (repeat x (nrows a)) (rows a)))), Ok tt).
Proof.
  intros Hs Hj.
  unfold assign_col_scalar, get_arr, getattr, bind, lift, setitem_col_scalar, setattr, ret.
  rewrite Hs.
  destruct (ncols a <=? j) eqn:E; [apply Nat.leb_le in E; lia|].
  reflexivity.
Qed.

Lemma ramp_length n (ws : F) : List.length (ramp n ws) = n.
Proof. unfold ramp. now rewrite length_map, length_seq. Qed.

End Methods.

Section Init.

Context {F : Type} `{SF : Scalar F}.

(** the two methods have the same body *)
Lemma init_all_states6_is_4 (ws wd : F) rp ts :
  init_all_states6 ws wd rp ts = init_all_states4 ws wd rp ts.
Proof. reflexivity. Qed.

Lemma init_all_states4_spec (o : pyobj F) n a ws wd rp ts :
  chain_ok o n a -> 4 <= ncols a ->
  init_all_states4 ws wd rp ts o =
  (set_attr_dict o "states"
     (PArr (mk_ndarray (ncols a) (write_cols (init_writes n ws wd rp) (rows a)))), Ok tt).
Proof.
  intros (Hn & Hs & Hr & Hw) Hc.
  unfold init_all_states4.
  rewrite (bind_ok _ _ o o (Z.of_nat n)) by (apply get_int_ok; exact Hn).
  unfold arange; rewrite Nat2Z.id; fold (ramp n ws).
  rewrite (bind_ok _ _ o _ tt)
    by (apply assign_col_ok; [exact Hs | lia | now rewrite length_map, ramp_length]).
  rewrite (bind_ok _ _ _ _ tt)
    by (apply assign_col_ok; [apply lookup_set_same | simpl; lia
        | unfold nrows; simpl; now rewrite write_col_length, length_map, ramp_length]).
  rewrite set_attr_dict_twice.
  rewrite (bind_ok _ _ _ _ tt)
    by (apply assign_col_scalar_ok; [apply lookup_set_same | simpl; lia]).
  rewrite set_attr_dict_twice.
  erewrite assign_col_ok;
    [| apply lookup_set_same | simpl; lia
     | unfold nrows; simpl; now rewrite !write_col_length, ramp_length].
  rewrite set_attr_dict_twice.
  unfold nrows in *; cbn [rows]. rewrite !write_col_length, Hr. reflexivity.
Qed.

Lemma init_all_states6_spec (o : pyobj F) n a ws wd rp ts :
  chain_ok o n a -> 4 <= ncols a ->
  init_all_states6 ws wd rp ts o =
  (set_attr_dict o "states"
     (PArr (mk_ndarray (ncols a) (write_cols (init_writes n ws wd rp) (rows a)))), Ok tt).
Proof. rewrite init_all_states6_is_4. apply init_all_states4_spec. Qed.

End Init.

Section Columns.

Context {F : Type} `{SF : Scalar F}.

Lemma chain_ok_States_init n w : chain_ok (States_init n w) n (zeros n w).
Proof.
  unfold chain_ok, States_init, zeros, nrows; simpl.
  split; [reflexivity|]. split; [reflexivity|].
  split; [apply repeat_length|].
  apply Forall_forall. intros r Hr. apply repeat_spec in Hr. subst. apply repeat_length.
Qed.

Lemma widths_lt (rs : list (list F)) w j :
  j < w -> Forall (fun r => List.length r = w) rs -> Forall (fun r => j < List.length r) rs.
Proof. intros Hj H. eapply Forall_impl; [|exact H]. simpl; intros r ->; exact Hj. Qed.

(** the columns of the table [init_all_states] leaves behind *)
Lemma init_columns n (ws wd : F) rp (rs : list (list F)) w :
  List.length rs = n -> 4 <= w -> Forall (fun r => List.length r = w) rs ->
  let rs' := write_cols (init_writes n ws wd rp) rs in
  map (fun r => nth 0 r f_zero) rs' =
    map (fun d => f_add (f_mul (np_cos (deg2rad wd)) d) (rp0 rp)) (ramp n ws) /\
  map (fun r => nth 1 r f_zero) rs' =
    map (fun d => f_add (f_mul (np_sin (deg2rad wd)) d) (rp1 rp)) (ramp n ws) /\
  map (fun r => nth 2 r f_zero) rs' = repeat (rp2 rp) n /\
  map (fun r => nth 3 r f_zero) rs' = ramp n ws /\
  (forall j, 4 <= j -> map (fun r => nth j r f_zero) rs' = map (fun r => nth j r f_zero) rs).
Proof.
  intros Hl Hw Hf rs'. unfold rs', init_writes, write_cols; simpl.
  assert (Hlen : forall k v (x : list (list F)), List.length (write_col k v x) = List.length x)
    by (intros; apply write_col_length).
  assert (Hwid : forall k v (x : list (list F)), Forall (fun r => List.length r = w) x ->
                 Forall (fun r => List.length r = w) (write_col k v x))
    by (intros; apply write_col_widths; auto).
  repeat split.
  - rewrite !column_write_col_other by lia.
    apply column_write_col_same; [apply (widths_lt _ w); auto; lia|].
    now rewrite length_map, ramp_length.
  - rewrite !column_write_col_other by lia.
    apply column_write_col_same; [apply (widths_lt _ w); auto; lia|].
    now rewrite length_map, ramp_length, Hlen.
  - rewrite !column_write_col_other by lia.
    apply column_write_col_same; [apply (widths_lt _ w); auto; lia|].
    now rewrite repeat_length, !Hlen.
  - apply column_write_col_same; [apply (widths_lt _ w); auto; lia|].
    now rewrite ramp_length, !Hlen.
  - intros j Hj. rewrite !column_write_col_other by lia. reflexivity.
Qed.

(** after [init_all_states] on a well-shaped chain, the chain is well-shaped
    with the new table *)
Lemma chain_ok_after_init (o : pyobj F) n a ws wd rp :
  chain_ok o n a ->
  chain_ok (set_attr_dict o "states"
              (PArr (mk_ndarray (ncols a) (write_cols (init_writes n ws wd rp) (rows a)))))
           n (mk_ndarray (ncols a) (write_cols (init_writes n ws wd rp) (rows a))).
Proof.
  intros (Hn & Hs & Hr & Hw). unfold chain_ok, nrows in *; cbn [rows ncols].
  split; [rewrite lookup_set_other by discriminate; exact Hn|].
  split; [apply lookup_set_same|].
  split; [now rewrite write_cols_length|].
  now apply write_cols_widths.
Qed.

End Columns.

Lemma nth_firstn_lt {A} (r : list A) k j d : j < k -> nth j (firstn k r) d = nth j r d.
Proof.
  revert k j; induction r as [|x r IH]; intros [|k] [|j] Hj; simpl; try lia; auto.
  apply IH; lia.
Qed.

Lemma init_writes_nodup {F} `{Scalar F} n (ws wd : F) rp :
  NoDup (map fst (init_writes n ws wd rp)).
Proof. simpl. repeat constructor; simpl; intuition congruence. Qed.

(** ** The claims *)

(** C1: [get_world_coord] returns the N x 3 array of columns 0, 1, 2 for both
    variants.  It does for the 4-state variant; the 6-state one reads
    [self.op_list], which no constructor or method sets, and raises
    AttributeError on a fresh chain and on an initialised one. *)
Theorem get_world_coord6_attribute_error :
  forall (F : Type) (SF : Scalar F) n ws wd rp ts,
    let o := FLORIDynOPs6 n in
    let o' := fst (init_all_states6 ws wd rp ts o) in
    get_world_coord6 o = (o, Err (AttributeError "op_list")) /\
    get_world_coord6 o' = (o', Err (AttributeError "op_list")) /\
    (let p := fst (init_all_states4 ws wd rp ts (FLORIDynOPs4 n)) in
     exists a, states_of p = Some a /\
       get_world_coord4 p = (p, Ok (slice_cols 0 3 a)) /\
       ncols (slice_cols 0 3 a) = 3 /\ nrows (slice_cols 0 3 a) = n /\
       forall j, j < 3 -> column j (slice_cols 0 3 a) = column j a).
Proof.
  intros F SF n ws wd rp ts o o'.
  assert (H6 := init_all_states6_spec (FLORIDynOPs6 n) n (zeros n 6) ws wd rp ts
                  (chain_ok_States_init n 6) ltac:(simpl; lia)).
  assert (H4 := init_all_states4_spec (FLORIDynOPs4 n) n (zeros n 4) ws wd rp ts
                  (chain_ok_States_init n 4) ltac:(simpl; lia)).
  split; [reflexivity|]. split.
  - unfold o', o. rewrite H6. cbn [fst].
    unfold get_world_coord6, get_arr, getattr, bind.
    rewrite lookup_set_other by discriminate. reflexivity.
  - cbv zeta. rewrite H4. cbn [fst].
    eexists. split; [unfold states_of; rewrite lookup_set_same; reflexivity|].
    split; [unfold get_world_coord4, get_arr, getattr, bind; rewrite lookup_set_same; reflexivity|].
    split; [reflexivity|]. split.
    + unfold nrows, slice_cols; cbn [rows]. rewrite length_map, write_cols_length. apply repeat_length.
    + intros j Hj. unfold column, slice_cols; cbn [rows]. rewrite map_map. apply map_ext. intros r.
      rewrite skipn_O. now apply nth_firstn_lt.
Qed.

(** C6: [init_all_states] ignores [time_step]: for both variants, two calls
    that differ only in [time_step] are the same state transformer. *)
Theorem init_all_states_time_step_irrelevant :
  forall (F : Type) (SF : Scalar F) (ws wd : F) rp t1 t2,
    init_all_states4 ws wd rp t1 = init_all_states4 ws wd rp t2 /\
    init_all_states6 ws wd rp t1 = init_all_states6 ws wd rp t2.
Proof. split; reflexivity. Qed.

(** C7: [init_all_states] is idempotent for both variants: on a well-shaped
    chain, a second call with the same arguments leaves the object (and the
    outcome) exactly as the first call left it. *)
Theorem init_all_states_idempotent :
  forall (F : Type) (SF : Scalar F) (o : pyobj F) n a ws wd rp ts,
    chain_ok o n a -> 4 <= ncols a ->
    init_all_states4 ws wd rp ts (fst (init_all_states4 ws wd rp ts o)) =
      init_all_states4 ws wd rp ts o /\
    init_all_states6 ws wd rp ts (fst (init_all_states6 ws wd rp ts o)) =
      init_all_states6 ws wd rp ts o.
Proof.
  intros F SF o n a ws wd rp ts Hok Hc.
  change (init_all_states6 ws wd rp ts) with (init_all_states4 ws wd rp ts).
  assert (Hok' := chain_ok_after_init o n a ws wd rp Hok).
  rewrite (init_all_states4_spec o n a ws wd rp ts Hok Hc). cbn [fst].
  rewrite (init_all_states4_spec _ n _ ws wd rp ts Hok' Hc). cbn [rows ncols].
  rewrite set_attr_dict_twice, write_cols_idem by apply init_writes_nodup.
  split; reflexivity.
Qed.

(** C8 (the base class is modelled from the spec): [set_all_states] with a
    table whose shape is not N x W raises ValueError and leaves the object
    unchanged. *)
Theorem set_all_states_shape_mismatch :
  forall (F : Type) (SF : Scalar F) (o : pyobj F) N W (t : ndarray F),
    lookup o "n_time_steps" = Some (PInt N) ->
    lookup o "n_states" = Some (PInt W) ->
    (Z.of_nat (nrows t), Z.of_nat (ncols t)) <> (N, W) ->
    set_all_states t o = (o, Err ValueError).
Proof.
  intros F SF o N W t HN HW Hne.
  unfold set_all_states.
  rewrite (bind_ok _ _ o o N) by (apply get_int_ok; exact HN).
  rewrite (bind_ok _ _ o o W) by (apply get_int_ok; exact HW).
  destruct ((Z.of_nat (nrows t) =? N)%Z && (Z.of_nat (ncols t) =? W)%Z)%bool eqn:E.
  - apply andb_prop in E. destruct E as [E1 E2].
    apply Z.eqb_eq in E1, E2. rewrite E1, E2 in Hne. contradiction.
  - reflexivity.
Qed.

(** C9: [WindFarm(turbines, settings_sol)] holds exactly the given turbine list
    and settings, and its [time_step] reads the class default -1. *)
Theorem WindFarm_init_attributes :
  forall (Turbine Settings : Type) (turbines : list Turbine) (settings_sol : Settings),
    wf_getattr (WindFarm turbines settings_sol) "turbines"
      = Some (@WTurbines Turbine Settings turbines) /\
    wf_getattr (WindFarm turbines settings_sol) "settings_sol"
      = Some (@WSettings Turbine Settings settings_sol) /\
    wf_getattr (WindFarm turbines settings_sol) "time_step"
      = Some (@WInt Turbine Settings (-1)%Z).
Proof. intros. repeat split; reflexivity. Qed.

(** C10: on chains of the same length, the 4-state and the 6-state
    [init_all_states] write the same values into columns 0 to 3. *)
Theorem init_variants_agree_on_first_four :
  forall (F : Type) (SF : Scalar F) (o4 o6 : pyobj F) n a4 a6 ws wd rp ts,
    chain_ok o4 n a4 -> ncols a4 = 4 -> chain_ok o6 n a6 -> ncols a6 = 6 ->
    exists b4 b6,
      states_of (fst (init_all_states4 ws wd rp ts o4)) = Some b4 /\
      states_of (fst (init_all_states6 ws wd rp ts o6)) = Some b6 /\
      forall j, j < 4 -> column j b4 = column j b6.
Proof.
  intros F SF o4 o6 n a4 a6 ws wd rp ts H4 Hc4 H6 Hc6.
  rewrite (init_all_states4_spec o4 n a4 ws wd rp ts H4 ltac:(lia)).
  rewrite (init_all_states6_spec o6 n a6 ws wd rp ts H6 ltac:(lia)).
  cbn [fst]. unfold states_of. rewrite !lookup_set_same.
  do 2 eexists. split; [reflexivity|]. split; [reflexivity|].
  destruct H4 as (_ & _ & Hr4 & Hw4). destruct H6 as (_ & _ & Hr6 & Hw6).
  destruct (init_columns n ws wd rp (rows a4) (ncols a4) Hr4 ltac:(lia) Hw4)
    as (C0 & C1 & C2 & C3 & _).
  destruct (init_columns n ws wd rp (rows a6) (ncols a6) Hr6 ltac:(lia) Hw6)
    as (D0 & D1 & D2 & D3 & _).
  unfold column; cbn [rows].
  intros [|[|[|[|j]]]] Hj; try lia; congruence.
Qed.

Lemma nth_map_ramp {F} `{Scalar F} (g : F -> F) n (ws : F) i d :
  i < n -> nth i (map g (ramp n ws)) d = g (f_mul (f_of_int i) ws).
Proof.
  intros Hi.
  rewrite nth_indep with (d' := g (f_mul (f_of_int 0) ws))
    by (rewrite length_map, ramp_length; exact Hi).
  unfold ramp. rewrite map_map.
  rewrite (map_nth (fun i0 => g (f_mul (f_of_int i0) ws)) (seq 0 n) 0).
  now rewrite seq_nth.
Qed.

Lemma nth_ramp {F} `{Scalar F} n (ws : F) i d :
  i < n -> nth i (ramp n ws) d = f_mul (f_of_int i) ws.
Proof.
  intros Hi. rewrite <- (map_id (ramp n ws)). exact (nth_map_ramp (fun x => x) n ws i d Hi).
Qed.

(** C2: the 6-state [init_all_states] does not leave column 3 alone: on a
    fresh two-OP chain with wind speed 1, column 3 goes from [0; 0] to [0; 1],
    whatever numpy's [cos] and [sin] are. *)
Lemma init6_writes_column_3 :
  ~ (exists c s : float -> float,
       let SF := float64 c s in
       forall ws wd rp ts (o : pyobj float) a a',
         states_of o = Some a ->
         states_of (fst (init_all_states6 ws wd rp ts o)) = Some a' ->
         forall j, 3 <= j <= 5 -> column j a' = column j a).
Proof.
  intros [c [s H]]. cbv zeta in H. pose (SF := float64 c s).
  specialize (H 1%float 0%float (mk_vec3 0%float 0%float 0%float) 1%float (FLORIDynOPs6 2)
                _ _ eq_refl eq_refl 3 ltac:(lia)).
  apply (f_equal (fun l => PrimFloat.Leibniz.eqb (nth 1 l 0%float) 0%float)) in H.
  vm_compute in H. discriminate H.
Qed.

(** C2, amended: on a well-shaped chain the 6-state [init_all_states] writes
    column 3 with the downstream ramp [i * wind_speed] (as the 4-state variant
    does) and leaves columns 4 and 5 (and any further ones) unmodified. *)
Theorem init6_keeps_columns_from_4 :
  forall (F : Type) (SF : Scalar F) (o : pyobj F) n a ws wd rp ts,
    chain_ok o n a -> 4 <= ncols a ->
    exists a', states_of (fst (init_all_states6 ws wd rp ts o)) = Some a' /\
      ncols a' = ncols a /\
      column 3 a' = ramp n ws /\
      forall j, 4 <= j -> column j a' = column j a.
Proof.
  intros F SF o n a ws wd rp ts Hok Hc.
  rewrite (init_all_states6_spec o n a ws wd rp ts Hok Hc). cbn [fst].
  unfold states_of. rewrite lookup_set_same.
  eexists. split; [reflexivity|]. split; [reflexivity|].
  destruct Hok as (_ & _ & Hr & Hw).
  destruct (init_columns n ws wd rp (rows a) (ncols a) Hr Hc Hw) as (_ & _ & _ & C3 & C4).
  unfold column; cbn [rows]. split; [exact C3|]. exact C4.
Qed.

(** C3: the spec's scenario.  N = 5, wind speed 8, direction 0, rotor at
    (100, 200, 50), time step 1, computed in IEEE binary64 with any libm that
    has [cos 0 = 1] and [sin 0 = 0] (as IEEE 754 requires). *)
Theorem scenario_N5 :
  forall c s : float -> float, c 0%float = 1%float -> s 0%float = 0%float ->
    let SF := float64 c s in
    option_map (fun a => (column 0 a, column 1 a, column 2 a, column 3 a))
      (states_of (fst (init_all_states4 8%float 0%float (mk_vec3 100%float 200%float 50%float)
                         1%float (FLORIDynOPs4 5)))) =
    Some ([100; 108; 116; 124; 132], [200; 200; 200; 200; 200],
          [50; 50; 50; 50; 50], [0; 8; 16; 24; 32])%float.
Proof. intros c s Hc Hs SF. vm_compute. rewrite Hc, Hs. vm_compute. reflexivity. Qed.

Lemma scenario_N5_witness :
  poly_cos 0%float = 1%float /\ poly_sin 0%float = 0%float /\
  let SF := float64 poly_cos poly_sin in
  option_map (fun a => (column 0 a, column 1 a, column 2 a, column 3 a))
    (states_of (fst (init_all_states4 8%float 0%float (mk_vec3 100%float 200%float 50%float)
                       1%float (FLORIDynOPs4 5)))) =
  Some ([100; 108; 116; 124; 132], [200; 200; 200; 200; 200],
        [50; 50; 50; 50; 50], [0; 8; 16; 24; 32])%float.
Proof.
  split; [vm_compute; reflexivity|]. split; [vm_compute; reflexivity|].
  apply (scenario_N5 poly_cos poly_sin); vm_compute; reflexivity.
Defined.

(** C4 as stated fails in IEEE binary64: with wind speed 0.1 on a fresh
    four-OP chain, [distance[3] - distance[2]] is 0.10000000000000003, not
    0.1 (column 3 does not depend on the libm). *)
Lemma ramp_spacing_not_exact :
  ~ (exists c s : float -> float,
       let SF := float64 c s in
       forall (o : pyobj float) n a0 ws wd rp ts a,
         chain_ok o n a0 -> 4 <= ncols a0 -> 0 < n ->
         states_of (fst (init_all_states4 ws wd rp ts o)) = Some a ->
         nth 0 (column 3 a) f_zero = f_zero /\
         forall i, i + 1 < n ->
           f_sub (nth (i + 1) (column 3 a) f_zero) (nth i (column 3 a) f_zero) = ws).
Proof.
  intros [c [s H]]. cbv zeta in H. pose (SF := float64 c s).
  destruct (H (FLORIDynOPs4 4) 4 (zeros 4 4) 0x1.999999999999ap-4%float 0%float
              (mk_vec3 0%float 0%float 0%float) 1%float _
              (chain_ok_States_init 4 4) ltac:(simpl; lia) ltac:(lia) eq_refl) as [_ Hd].
  specialize (Hd 2 ltac:(lia)).
  apply (f_equal (fun x => PrimFloat.Leibniz.eqb x 0x1.999999999999ap-4%float)) in Hd.
  vm_compute in Hd. discriminate Hd.
Qed.

(** C4, amended: column 3 is [float(i) * wind_speed], one multiplication per
    index, on every well-shaped chain and in every arithmetic; in exact real
    arithmetic this gives [distance[0] = 0] and constant spacing
    [wind_speed]. *)
Theorem ramp_column :
  (forall (F : Type) (SF : Scalar F) (o : pyobj F) n a ws wd rp ts,
     chain_ok o n a -> 4 <= ncols a ->
     option_map (column 3) (states_of (fst (init_all_states4 ws wd rp ts o))) =
       Some (ramp n ws) /\
     (forall i, i < n -> nth i (ramp n ws) f_zero = f_mul (f_of_int i) ws)) /\
  (forall (o : pyobj R) n a0 (ws wd : R) rp ts a,
     chain_ok o n a0 -> 4 <= ncols a0 -> 0 < n ->
     states_of (fst (init_all_states4 ws wd rp ts o)) = Some a ->
     nth 0 (column 3 a) 0%R = 0%R /\
     forall i, i + 1 < n -> (nth (i + 1) (column 3 a) 0 - nth i (column 3 a) 0)%R = ws).
Proof.
  split.
  - intros F SF o n a ws wd rp ts Hok Hc. split.
    + rewrite (init_all_states4_spec o n a ws wd rp ts Hok Hc). cbn [fst].
      unfold states_of. rewrite lookup_set_same. cbn [option_map].
      destruct Hok as (_ & _ & Hr & Hw).
      destruct (init_columns n ws wd rp (rows a) (ncols a) Hr Hc Hw) as (_ & _ & _ & C3 & _).
      unfold column; cbn [rows]. now rewrite C3.
    + intros i Hi. now apply nth_ramp.
  - intros o n a0 ws wd rp ts a Hok Hc Hn Ha.
    rewrite (init_all_states4_spec o n a0 ws wd rp ts Hok Hc) in Ha. cbn [fst] in Ha.
    unfold states_of in Ha. rewrite lookup_set_same in Ha.
    apply (f_equal (fun x => match x with Some y => y | None => a end)) in Ha.
    cbv beta iota in Ha. subst a.
    destruct Hok as (_ & _ & Hr & Hw).
    destruct (init_columns n ws wd rp (rows a0) (ncols a0) Hr Hc Hw) as (_ & _ & _ & C3 & _).
    unfold column; cbn [rows]. rewrite C3.
    split.
    + rewrite nth_ramp by exact Hn. simpl. ring.
    + intros i Hi. rewrite !nth_ramp by lia. simpl.
      rewrite plus_INR. simpl. ring.
Qed.

Lemma ramp_column_witness :
  (let SF := float64 poly_cos poly_sin in
   option_map (column 3) (states_of (fst (init_all_states4 0.5%float 0%float
     (mk_vec3 0%float 0%float 0%float) 1%float (FLORIDynOPs4 3)))) =
   Some (ramp 3 0.5%float) /\
   (forall i, i < 3 -> nth i (ramp 3 0.5%float) f_zero = f_mul (f_of_int i) 0.5%float)) /\
  exists a : ndarray R,
    states_of (fst (init_all_states4 2%R 0%R (mk_vec3 0%R 0%R 0%R) 1%R (FLORIDynOPs4 3))) = Some a /\
    nth 0 (column 3 a) 0%R = 0%R /\
    forall i, i + 1 < 3 -> (nth (i + 1) (column 3 a) 0 - nth i (column 3 a) 0)%R = 2%R.
Proof.
  split.
  - pose (SF := float64 poly_cos poly_sin).
    apply (proj1 ramp_column float SF (FLORIDynOPs4 3) 3 (zeros 3 4)).
    + apply chain_ok_States_init.
    + simpl; lia.
  - eexists. split; [reflexivity|].
    apply (proj2 ramp_column (FLORIDynOPs4 3) 3 (zeros 3 4) 2%R 0%R (mk_vec3 0%R 0%R 0%R) 1%R).
    + apply chain_ok_States_init.
    + simpl; lia.
    + lia.
    + reflexivity.
Defined.

(** C5 as stated fails in IEEE binary64 for the 90 degree case: numpy's
    [cos] at [deg2rad 90 = 0x1.921fb54442d18p+0] (the double nearest pi/2)
    is 6.123233995736766e-17, not 0, so with the rotor at x = 0 and wind speed
    8 the second OP has x = 4.898587196589413e-16, not 0. *)
Lemma direction_90_not_exact :
  ~ (exists c s : float -> float,
       let SF := float64 c s in
       c 0x1.921fb54442d18p+0%float = 0x1.1a62633145c07p-54%float /\
       direction_claim (fun x y => PrimFloat.ltb x y = true) init_all_states4 /\
       direction_claim (fun x y => PrimFloat.ltb x y = true) init_all_states6).
Proof.
  intros [c [s [Hc [H4 _]]]]. pose (SF := float64 c s).
  destruct (H4 (FLORIDynOPs4 2) 2 (zeros 2 4) 8%float 90%float
              (mk_vec3 0%float 0%float 0%float) 1%float _
              (chain_ok_States_init 2 4) ltac:(simpl; lia) eq_refl eq_refl)
    as [_ [H90 _]].
  destruct (H90 eq_refl) as [Hx _].
  specialize (Hx 1 ltac:(lia)).
  vm_compute in Hx. rewrite Hc in Hx.
  apply (f_equal (fun x => PrimFloat.Leibniz.eqb x 0%float)) in Hx.
  vm_compute in Hx. discriminate Hx.
Qed.

Lemma deg2rad_0_R : @deg2rad R _ (f_of_int 0) = 0%R.
Proof. simpl. ring. Qed.

Lemma deg2rad_90_R : @deg2rad R _ (f_of_int 90) = (PI / 2)%R.
Proof.
  change (INR 90 * (PI / INR 180) = PI / 2)%R.
  rewrite (INR_IZR_INZ 90), (INR_IZR_INZ 180). simpl. field.
Qed.

Lemma ramp_strict_R n (ws : R) c r i j :
  (0 < ws)%R -> (0 < c)%R -> i < j < n ->
  (nth i (map (fun d => c * d + r) (ramp n ws)) 0 <
   nth j (map (fun d => c * d + r) (ramp n ws)) 0)%R.
Proof.
  intros Hws Hc Hij.
  rewrite !(nth_map_ramp (fun d => c * d + r)%R) by lia. simpl.
  apply Rplus_lt_compat_r. apply Rmult_lt_compat_l; [exact Hc|].
  apply Rmult_lt_compat_r; [exact Hws|]. apply lt_INR. lia.
Qed.

Lemma direction_claim_R (init : R -> R -> vec3 R -> R -> M R unit) :
  (forall (o : pyobj R) n a ws wd rp ts, chain_ok o n a -> 4 <= ncols a ->
     init ws wd rp ts o =
     (set_attr_dict o "states"
        (PArr (mk_ndarray (ncols a) (write_cols (init_writes n ws wd rp) (rows a)))), Ok tt)) ->
  direction_claim Rlt init.
Proof.
  intros Hspec o n a0 ws wd rp ts a Hok Hc Hws Ha.
  rewrite (Hspec o n a0 ws wd rp ts Hok Hc) in Ha. cbn [fst] in Ha.
  unfold states_of in Ha. rewrite lookup_set_same in Ha.
  apply (f_equal (fun x => match x with Some y => y | None => a end)) in Ha.
  cbv beta iota in Ha. subst a.
  destruct Hok as (_ & _ & Hr & Hw).
  destruct (init_columns n ws wd rp (rows a0) (ncols a0) Hr Hc Hw) as (C0 & C1 & C2 & _ & _).
  unfold column; cbn [rows]. rewrite C0, C1, C2.
  split; [|split].
  - intros ->. rewrite deg2rad_0_R. split.
    + intros i Hi. rewrite nth_map_ramp by exact Hi. simpl. rewrite sin_0. ring.
    + intros i j Hij. apply ramp_strict_R; auto. simpl; rewrite cos_0; lra.
  - intros ->. rewrite deg2rad_90_R. split.
    + intros i Hi. rewrite nth_map_ramp by exact Hi. simpl. rewrite cos_PI2. ring.
    + intros i j Hij. apply ramp_strict_R; auto. simpl; rewrite sin_PI2; lra.
  - intros i Hi. rewrite nth_indep with (d' := rp2 rp) by (rewrite repeat_length; exact Hi).
    apply nth_repeat.
Qed.

(** C5, amended: every OP's z equals [rotor_pos.z] after [init_all_states]
    on either variant, in every arithmetic (binary64 included); the
    direction properties (0 degrees: y = rotor_pos.y with x strictly
    increasing; 90 degrees: x = rotor_pos.x with y strictly increasing) hold
    for both variants in exact real arithmetic, and only up to rounding in
    binary64. *)
Theorem direction_height_exact :
  direction_claim Rlt init_all_states4 /\
  direction_claim Rlt init_all_states6 /\
  (forall (F : Type) (SF : Scalar F) (o : pyobj F) n a ws wd rp ts,
     chain_ok o n a -> 4 <= ncols a ->
     option_map (column 2) (states_of (fst (init_all_states4 ws wd rp ts o))) =
       Some (repeat (rp2 rp) n) /\
     option_map (column 2) (states_of (fst (init_all_states6 ws wd rp ts o))) =
       Some (repeat (rp2 rp) n)).
Proof.
  split; [apply direction_claim_R; intros; now apply init_all_states4_spec|].
  split; [apply direction_claim_R; intros; now apply init_all_states6_spec|].
  intros F SF o n a ws wd rp ts Hok Hc.
  rewrite (init_all_states4_spec o n a ws wd rp ts Hok Hc).
  rewrite (init_all_states6_spec o n a ws wd rp ts Hok Hc). cbn [fst].
  unfold states_of. rewrite lookup_set_same. cbn [option_map].
  destruct Hok as (_ & _ & Hr & Hw).
  destruct (init_columns n ws wd rp (rows a) (ncols a) Hr Hc Hw) as (_ & _ & C2 & _ & _).
  unfold column; cbn [rows]. now rewrite C2.
Qed.

Lemma direction_height_exact_witness :
  exists a : ndarray R,
    states_of (fst (init_all_states4 1%R (f_of_int 90) (mk_vec3 5%R 6%R 7%R) 1%R
                      (FLORIDynOPs4 3))) = Some a /\
    (forall i, i < 3 -> nth i (column 0 a) 0%R = 5%R) /\
    (forall i j, i < j < 3 -> (nth i (column 1 a) 0 < nth j (column 1 a) 0)%R) /\
    (forall i, i < 3 -> nth i (column 2 a) 0%R = 7%R).
Proof.
  eexists. split; [reflexivity|].
  destruct (proj1 direction_height_exact (FLORIDynOPs4 3) 3 (zeros 3 4) 1%R (f_of_int 90)
              (mk_vec3 5%R 6%R 7%R) 1%R _ (chain_ok_States_init 3 4) ltac:(simpl; lia)
              Rlt_0_1 eq_refl) as [_ [H90 Hz]].
  destruct (H90 eq_refl) as [Hx Hy].
  split; [exact Hx|]. split; [exact Hy|]. exact Hz.
Defined.

Lemma init6_keeps_columns_from_4_witness :
  exists a' : ndarray R,
    states_of (fst (init_all_states6 1%R 0%R (mk_vec3 0%R 0%R 0%R) 1%R (FLORIDynOPs6 2))) = Some a' /\
    ncols a' = ncols (zeros 2 6) /\
    column 3 a' = ramp 2 1%R /\
    forall j, 4 <= j -> column j a' = column j (zeros 2 6).
Proof.
  apply (init6_keeps_columns_from_4 R real_scalar (FLORIDynOPs6 2) 2 (zeros 2 6)).
  - apply chain_ok_States_init.
  - simpl; lia.
Defined.

Lemma init_all_states_idempotent_witness :
  let o := @FLORIDynOPs4 R real_scalar 3 in
  let rp := mk_vec3 100%R 200%R 50%R in
  init_all_states4 8%R 0%R rp 1%R (fst (init_all_states4 8%R 0%R rp 1%R o)) =
    init_all_states4 8%R 0%R rp 1%R o /\
  init_all_states6 8%R 0%R rp 1%R (fst (init_all_states6 8%R 0%R rp 1%R o)) =
    init_all_states6 8%R 0%R rp 1%R o.
Proof.
  apply (init_all_states_idempotent R real_scalar (FLORIDynOPs4 3) 3 (zeros 3 4)).
  - apply chain_ok_States_init.
  - simpl; lia.
Defined.

Lemma set_all_states_shape_mismatch_witness :
  set_all_states (zeros 2 5) (FLORIDynOPs4 2 : pyobj R) = (FLORIDynOPs4 2, Err ValueError).
Proof.
  apply (set_all_states_shape_mismatch R real_scalar (FLORIDynOPs4 2) 2%Z 4%Z (zeros 2 5)).
  - reflexivity.
  - reflexivity.
  - simpl. congruence.
Defined.

Lemma init_variants_agree_on_first_four_witness :
  exists b4 b6 : ndarray R,
    states_of (fst (init_all_states4 8%R 0%R (mk_vec3 100%R 200%R 50%R) 1%R (FLORIDynOPs4 3))) = Some b4 /\
    states_of (fst (init_all_states6 8%R 0%R (mk_vec3 100%R 200%R 50%R) 1%R (FLORIDynOPs6 3))) = Some b6 /\
    forall j, j < 4 -> column j b4 = column j b6.
Proof.
  apply (init_variants_agree_on_first_four R real_scalar (FLORIDynOPs4 3) (FLORIDynOPs6 3) 3
           (zeros 3 4) (zeros 3 6)).
  - apply chain_ok_States_init.
  - reflexivity.
  - apply chain_ok_States_init.
  - reflexivity.
Defined.

(** ** Further properties of the code *)

Section Run.

Context {F : Type} `{SF : Scalar F}.

Lemma setitem_col_index j v (a : ndarray F) :
  ncols a <= j -> setitem_col j v a = Err IndexError.
Proof.
  intros H. unfold setitem_col. destruct (ncols a <=? j) eqn:E; [reflexivity|].
  apply Nat.leb_gt in E. lia.
Qed.

Lemma setitem_col_value j v (a : ndarray F) :
  j < ncols a -> List.length v <> nrows a -> List.length v <> 1 ->
  setitem_col j v a = Err ValueError.
Proof.
  intros Hj H1 H2. unfold setitem_col.
  destruct (ncols a <=? j) eqn:E; [apply Nat.leb_le in E; lia|].
  destruct (List.length v =? nrows a) eqn:E1; [apply Nat.eqb_eq in E1; contradiction|].
  destruct (List.length v =? 1) eqn:E2; [apply Nat.eqb_eq in E2; contradiction|].
  reflexivity.
Qed.

Lemma setitem_col_bcast j v (a : ndarray F) :
  j < ncols a -> List.length v = nrows a \/ List.length v = 1 ->
  setitem_col j v a =
  Ok (mk_ndarray (ncols a) (write_col j (broadcast_to (nrows a) v) (rows a))).
Proof.
  intros Hj Hl. unfold setitem_col, broadcast_to.
  destruct (ncols a <=? j) eqn:E; [apply Nat.leb_le in E; lia|].
  destruct (List.length v =? nrows a) eqn:E1; [reflexivity|].
  apply Nat.eqb_neq in E1.
  destruct (List.length v =? 1) eqn:E2; [reflexivity|].
  apply Nat.eqb_neq in E2. lia.
Qed.

Lemma setitem_col_scalar_index j x (a : ndarray F) :
  ncols a <= j -> setitem_col_scalar j x a = Err IndexError.
Proof.
  intros H. unfold setitem_col_scalar. destruct (ncols a <=? j) eqn:E; [reflexivity|].
  apply Nat.leb_gt in E. lia.
Qed.

Lemma setitem_col_scalar_ok' j x (a : ndarray F) :
  j < ncols a ->
  setitem_col_scalar j x a = Ok (mk_ndarray (ncols a) (write_col j (repeat x (nrows a)) (rows a))).
Proof.
  intros H. unfold setitem_col_scalar. destruct (ncols a <=? j) eqn:E; [|reflexivity].
  apply Nat.leb_le in E. lia.
Qed.

Lemma assign_col_run (o : pyobj F) j v a :
  lookup o "states" = Some (PArr a) ->
  assign_col j v o =
  match setitem_col j v a with
  | Ok a' => (set_attr_dict o "states" (PArr a'), Ok tt)
  | Err e => (o, Err e)
  end.
Proof.
  intros Hs. unfold assign_col, get_arr, getattr, bind, lift, setattr, ret, raise.
  rewrite Hs. destruct (setitem_col j v a); reflexivity.
Qed.

Lemma assign_col_scalar_run (o : pyobj F) j x a :
  lookup o "states" = Some (PArr a) ->
  assign_col_scalar j x o =
  match setitem_col_scalar j x a with
  | Ok a' => (set_attr_dict o "states" (PArr a'), Ok tt)
  | Err e => (o, Err e)
  end.
Proof.
  intros Hs. unfold assign_col_scalar, get_arr, getattr, bind, lift, setattr, ret, raise.
  rewrite Hs. destruct (setitem_col_scalar j x a); reflexivity.
Qed.

(** one run of [init_all_states] on an object with an integer [n_time_steps]
    and an array [states]: the four column assignments in order, the first
    failing one ending the call with the writes before it kept *)
Lemma init_all_states4_run (o : pyobj F) z a ws wd rp ts :
  lookup o "n_time_steps" = Some (PInt z) -> lookup o "states" = Some (PArr a) ->
  init_all_states4 ws wd rp ts o =
  match setitem_col 0 (map (fun d => f_add (f_mul (np_cos (deg2rad wd)) d) (rp0 rp))
                         (ramp (Z.to_nat z) ws)) a with
  | Err e => (o, Err e)
  | Ok a1 =>
    match setitem_col 1 (map (fun d => f_add (f_mul (np_sin (deg2rad wd)) d) (rp1 rp))
                           (ramp (Z.to_nat z) ws)) a1 with
    | Err e => (set_attr_dict o "states" (PArr a1), Err e)
    | Ok a2 =>
      match setitem_col_scalar 2 (rp2 rp) a2 with
      | Err e => (set_attr_dict o "states" (PArr a2), Err e)
      | Ok a3 =>
        match setitem_col 3 (ramp (Z.to_nat z) ws) a3 with
        | Err e => (set_attr_dict o "states" (PArr a3), Err e)
        | Ok a4 => (set_attr_dict o "states" (PArr a4), Ok tt)
        end
      end
    end
  end.
Proof.
  intros Hn Hs. unfold init_all_states4.
  rewrite (bind_ok _ _ o o z) by (apply get_int_ok; exact Hn).
  unfold arange. fold (ramp (Z.to_nat z) ws).
  unfold bind at 1. rewrite (assign_col_run o _ _ a Hs).
  destruct (setitem_col 0 _ a) as [a1|e]; [|reflexivity].
  unfold bind at 1. rewrite (assign_col_run _ _ _ a1) by apply lookup_set_same.
  destruct (setitem_col 1 _ a1) as [a2|e]; [|reflexivity].
  unfold bind at 1. rewrite (assign_col_scalar_run _ _ _ a2) by apply lookup_set_same.
  destruct (setitem_col_scalar 2 _ a2) as [a3|e]; [|now rewrite set_attr_dict_twice].
  rewrite (assign_col_run _ _ _ a3) by apply lookup_set_same.
  destruct (setitem_col 3 _ a3) as [a4|e]; now rewrite !set_attr_dict_twice.
Qed.

Lemma broadcast_to_same m (v : list F) : List.length v = m -> broadcast_to m v = v.
Proof. intros H. unfold broadcast_to. now rewrite H, Nat.eqb_refl. Qed.

Lemma broadcast_to_single m (x : F) : broadcast_to m [x] = repeat x m.
Proof.
  unfold broadcast_to. destruct (List.length [x] =? m) eqn:E; [|reflexivity].
  apply Nat.eqb_eq in E. simpl in E. now subst m.
Qed.

Lemma write_col_overwrite j v u (rs : list (list F)) :
  List.length rs <= List.length v ->
  write_col j v (write_col j u rs) = write_col j v rs.
Proof.
  revert v u; induction rs as [|r rs IH]; intros [|x v] [|y u] Hl; simpl in *; try lia; auto.
  - rewrite replace_at_idem. f_equal. apply IH. lia.
Qed.

(** a second sequence of writes to the same distinct columns, each covering
    every row, hides the first *)
Lemma write_cols_overwrite ws1 ws2 (rs : list (list F)) :
  map fst ws1 = map fst ws2 -> NoDup (map fst ws2) ->
  Forall (fun jv => List.length rs <= List.length (snd jv)) ws2 ->
  write_cols ws2 (write_cols ws1 rs) = write_cols ws2 rs.
Proof.
  revert ws1; induction ws2 as [|[j v] ws2 IH]; intros [|[k u] ws1] Hk Hnd Hl;
    cbn [map fst snd] in *; try discriminate; auto.
  injection Hk as -> Hk. inversion Hnd; subst. inversion Hl; subst.
  change (write_cols ((j, u) :: ws1) rs) with (write_col j u (write_cols ws1 rs)).
  change (write_cols ((j, v) :: ws2) ?X) with (write_col j v (write_cols ws2 X)).
  rewrite <- (write_col_write_cols j u ws2 (write_cols ws1 rs)) by assumption.
  rewrite write_col_overwrite by (rewrite write_cols_length, write_cols_length; assumption).
  rewrite (IH ws1 Hk); auto.
Qed.

End Run.

Ltac init_step :=
  first
  [ rewrite setitem_col_index by (cbn [ncols]; lia)
  | rewrite setitem_col_scalar_index by (cbn [ncols]; lia)
  | rewrite setitem_col_scalar_ok' by (cbn [ncols]; lia)
  | rewrite setitem_col_bcast
      by (unfold nrows; cbn [ncols rows]; rewrite ?length_map, ?ramp_length, ?write_col_length; cbn [List.length]; lia)
  | rewrite setitem_col_value
      by (unfold nrows; cbn [ncols rows]; rewrite ?length_map, ?ramp_length, ?write_col_length; cbn [List.length]; lia) ];
  unfold nrows; cbn [ncols rows]; cbv iota.

Section Extras.

Lemma init_success_4 {F} `{SF : Scalar F} (o : pyobj F) z a ws wd rp ts :
  lookup o "n_time_steps" = Some (PInt z) -> lookup o "states" = Some (PArr a) ->
  (snd (init_all_states4 ws wd rp ts o) = Ok tt <->
   4 <= ncols a /\ (Z.to_nat z = nrows a \/ Z.to_nat z = 1)).
Proof.
  intros Hn Hs. rewrite (init_all_states4_run o z a ws wd rp ts Hn Hs).
  unfold nrows in *.
  destruct (Nat.eq_dec (Z.to_nat z) (List.length (rows a))) as [E|E];
  [|destruct (Nat.eq_dec (Z.to_nat z) 1) as [E1|E1]].
  - assert (Hc : ncols a = 0 \/ ncols a = 1 \/ ncols a = 2 \/ ncols a = 3 \/ 4 <= ncols a) by lia.
    destruct Hc as [Hc|[Hc|[Hc|[Hc|Hc]]]]; repeat init_step; cbn [snd];
      split; intros H; try discriminate; try lia; auto.
  - assert (Hc : ncols a = 0 \/ ncols a = 1 \/ ncols a = 2 \/ ncols a = 3 \/ 4 <= ncols a) by lia.
    destruct Hc as [Hc|[Hc|[Hc|[Hc|Hc]]]]; repeat init_step; cbn [snd];
      split; intros H; try discriminate; try lia; auto.
  - assert (Hc : ncols a = 0 \/ 1 <= ncols a) by lia.
    destruct Hc as [Hc|Hc]; repeat init_step; cbn [snd];
      split; intros H; try discriminate; try lia.
Qed.

Lemma variant_is_4 {F} `{SF : Scalar F} (init : F -> F -> vec3 F -> F -> M F unit) :
  init = init_all_states4 \/ init = init_all_states6 -> init = init_all_states4.
Proof. intros [-> | ->]; reflexivity. Qed.

Lemma setitem_col_write {F} `{SF : Scalar F} j v (a a' : ndarray F) :
  setitem_col j v a = Ok a' -> exists v', a' = mk_ndarray (ncols a) (write_col j v' (rows a)).
Proof.
  unfold setitem_col. intros H.
  destruct (ncols a <=? j); [discriminate|].
  destruct (List.length v =? nrows a); [injection H as <-; eauto|].
  destruct (List.length v =? 1); [injection H as <-; eauto|discriminate].
Qed.

Lemma setitem_col_scalar_write {F} `{SF : Scalar F} j x (a a' : ndarray F) :
  setitem_col_scalar j x a = Ok a' -> exists v', a' = mk_ndarray (ncols a) (write_col j v' (rows a)).
Proof.
  unfold setitem_col_scalar. intros H.
  destruct (ncols a <=? j); [discriminate|]. injection H as <-; eauto.
Qed.

Lemma same_layout_refl {F} `{SF : Scalar F} k (a : ndarray F) : same_layout_from k a a.
Proof. unfold same_layout_from. repeat split; auto. Qed.

Lemma same_layout_trans {F} `{SF : Scalar F} k (a b c : ndarray F) :
  same_layout_from k a b -> same_layout_from k b c -> same_layout_from k a c.
Proof.
  intros (B1 & B2 & B3 & B4) (C1 & C2 & C3 & C4). unfold same_layout_from.
  split; [congruence|]. split; [congruence|]. split.
  - intros j Hj. rewrite C3, B3 by exact Hj. reflexivity.
  - intros H. apply C4, B4, H.
Qed.

Lemma same_layout_write_col {F} `{SF : Scalar F} k j v (a : ndarray F) :
  j < k -> same_layout_from k a (mk_ndarray (ncols a) (write_col j v (rows a))).
Proof.
  intros Hj. unfold same_layout_from, nrows, column; cbn [ncols rows].
  split; [reflexivity|]. split; [apply write_col_length|]. split.
  - intros j' Hj'. apply column_write_col_other. lia.
  - apply write_col_widths.
Qed.

(** after any call of [init_all_states], the object is the old one, or the old
    one whose [states] array has been replaced by one of the same layout from
    column 4 on *)
Lemma init_all_states4_outcome {F} `{SF : Scalar F} (o : pyobj F) ws wd rp ts :
  fst (init_all_states4 ws wd rp ts o) = o \/
  exists a b, lookup o "states" = Some (PArr a) /\
    fst (init_all_states4 ws wd rp ts o) = set_attr_dict o "states" (PArr b) /\
    same_layout_from 4 a b.
Proof.
  destruct (lookup o "n_time_steps") as [[z|q]|] eqn:Hn.
  - destruct (lookup o "states") as [[q|a]|] eqn:Hs.
    + left. unfold init_all_states4.
      rewrite (bind_ok _ _ o o z) by (apply get_int_ok; exact Hn).
      unfold bind at 1, assign_col at 1, get_arr, getattr, bind. rewrite Hs. reflexivity.
    + rewrite (init_all_states4_run o z a ws wd rp ts Hn Hs).
      destruct (setitem_col 0 _ a) as [a1|e] eqn:E1; [|left; reflexivity].
      right. exists a.
      assert (L1 : same_layout_from 4 a a1)
        by (destruct (setitem_col_write _ _ _ _ E1) as [v' ->]; apply same_layout_write_col; lia).
      destruct (setitem_col 1 _ a1) as [a2|e] eqn:E2;
        [|exists a1; split; [reflexivity|]; split; [reflexivity|exact L1]].
      assert (L2 : same_layout_from 4 a a2)
        by (destruct (setitem_col_write _ _ _ _ E2) as [v' ->];
            eapply same_layout_trans; [exact L1|]; apply same_layout_write_col; lia).
      destruct (setitem_col_scalar 2 _ a2) as [a3|e] eqn:E3;
        [|exists a2; split; [reflexivity|]; split; [reflexivity|exact L2]].
      assert (L3 : same_layout_from 4 a a3)
        by (destruct (setitem_col_scalar_write _ _ _ _ E3) as [v' ->];
            eapply same_layout_trans; [exact L2|]; apply same_layout_write_col; lia).
      destruct (setitem_col 3 _ a3) as [a4|e] eqn:E4;
        [|exists a3; split; [reflexivity|]; split; [reflexivity|exact L3]].
      assert (L4 : same_layout_from 4 a a4)
        by (destruct (setitem_col_write _ _ _ _ E4) as [v' ->];
            eapply same_layout_trans; [exact L3|]; apply same_layout_write_col; lia).
      exists a4; split; [reflexivity|]; split; [reflexivity|exact L4].
    + left. unfold init_all_states4.
      rewrite (bind_ok _ _ o o z) by (apply get_int_ok; exact Hn).
      unfold bind at 1, assign_col at 1, get_arr, getattr, bind. rewrite Hs. reflexivity.
  - left. unfold init_all_states4, get_int, getattr, bind. rewrite Hn. reflexivity.
  - left. unfold init_all_states4, get_int, getattr, bind. rewrite Hn. reflexivity.
Qed.

End Extras.

(** [init_all_states] (either variant) assigns nothing but [self.states]:
    whatever the object and whether the call succeeds or raises, every other
    attribute reads as before. *)
Theorem init_all_states_only_writes_states :
  forall (F : Type) (SF : Scalar F) init (o : pyobj F) ws wd rp ts k,
    init = init_all_states4 \/ init = init_all_states6 ->
    k <> "states"%string ->
    lookup (fst (init ws wd rp ts o)) k = lookup o k.
Proof.
  intros F SF init o ws wd rp ts k Hv Hk. rewrite (variant_is_4 init Hv).
  destruct (init_all_states4_outcome o ws wd rp ts) as [-> | (a & b & _ & -> & _)];
    [reflexivity|].
  apply lookup_set_other. congruence.
Qed.

(** [init_all_states] (either variant) never reshapes the table: whether it
    succeeds or raises, [self.states] afterwards is an array with the same
    number of rows and columns, the same columns from 4 on, and rows as wide
    as before when they all had the table's width. *)
Theorem init_all_states_keeps_layout :
  forall (F : Type) (SF : Scalar F) init (o : pyobj F) a ws wd rp ts,
    init = init_all_states4 \/ init = init_all_states6 ->
    lookup o "states" = Some (PArr a) ->
    exists b, states_of (fst (init ws wd rp ts o)) = Some b /\
      ncols b = ncols a /\ nrows b = nrows a /\
      (forall j, 4 <= j -> column j b = column j a) /\
      (Forall (fun r => List.length r = ncols a) (rows a) ->
       Forall (fun r => List.length r = ncols b) (rows b)).
Proof.
  intros F SF init o a ws wd rp ts Hv Hs. rewrite (variant_is_4 init Hv).
  destruct (init_all_states4_outcome o ws wd rp ts) as [-> | (a' & b & Hs' & -> & L)].
  - exists a. unfold states_of. rewrite Hs. split; [reflexivity|]. apply same_layout_refl.
  - rewrite Hs in Hs'. injection Hs' as <-.
    exists b. unfold states_of. rewrite lookup_set_same. split; [reflexivity|]. exact L.
Qed.

(** [init_all_states] (either variant) on an object with an integer
    [n_time_steps] and an array [states] returns normally exactly when the
    table has at least 4 columns and [np.arange(n_time_steps)] has as many
    entries as the table has rows, or exactly one entry (numpy broadcasting). *)
Theorem init_all_states_success_condition :
  forall (F : Type) (SF : Scalar F) init (o : pyobj F) z a ws wd rp ts,
    init = init_all_states4 \/ init = init_all_states6 ->
    lookup o "n_time_steps" = Some (PInt z) -> lookup o "states" = Some (PArr a) ->
    (snd (init ws wd rp ts o) = Ok tt <->
     4 <= ncols a /\ (Z.to_nat z = nrows a \/ Z.to_nat z = 1)).
Proof.
  intros F SF init o z a ws wd rp ts Hv Hn Hs. rewrite (variant_is_4 init Hv).
  now apply init_success_4.
Qed.

(** When [np.arange(n_time_steps)] has neither as many entries as the table
    has rows nor exactly one, [init_all_states] (either variant) raises
    ValueError at the first column assignment and leaves the object as it
    was (this covers a negative [n_time_steps] on a non-empty table). *)
Theorem init_all_states_row_mismatch :
  forall (F : Type) (SF : Scalar F) init (o : pyobj F) z a ws wd rp ts,
    init = init_all_states4 \/ init = init_all_states6 ->
    lookup o "n_time_steps" = Some (PInt z) -> lookup o "states" = Some (PArr a) ->
    1 <= ncols a -> Z.to_nat z <> nrows a -> Z.to_nat z <> 1 ->
    init ws wd rp ts o = (o, Err ValueError).
Proof.
  intros F SF init o z a ws wd rp ts Hv Hn Hs Hc H1 H2. rewrite (variant_is_4 init Hv).
  rewrite (init_all_states4_run o z a ws wd rp ts Hn Hs).
  unfold nrows in *. init_step. reflexivity.
Qed.

(** On a chain of the right length whose table has fewer than 4 columns,
    [init_all_states] (either variant) raises IndexError, and the column
    assignments before the failing one stay done: the table holds the
    initial values in every column it has. *)
Theorem init_all_states_index_error_partial :
  forall (F : Type) (SF : Scalar F) init (o : pyobj F) n a ws wd rp ts,
    init = init_all_states4 \/ init = init_all_states6 ->
    lookup o "n_time_steps" = Some (PInt (Z.of_nat n)) -> lookup o "states" = Some (PArr a) ->
    nrows a = n -> ncols a < 4 ->
    snd (init ws wd rp ts o) = Err IndexError /\
    states_of (fst (init ws wd rp ts o)) =
      Some (mk_ndarray (ncols a)
              (write_cols (filter (fun jv => fst jv <? ncols a) (init_writes n ws wd rp)) (rows a))).
Proof.
  intros F SF init o n a ws wd rp ts Hv Hn Hs Hr Hc. rewrite (variant_is_4 init Hv).
  rewrite (init_all_states4_run o _ a ws wd rp ts Hn Hs). rewrite Nat2Z.id.
  unfold nrows in *.
  assert (Hc' : ncols a = 0 \/ ncols a = 1 \/ ncols a = 2 \/ ncols a = 3) by lia.
  destruct Hc' as [E|[E|[E|E]]]; repeat init_step;
    rewrite ?broadcast_to_same by (rewrite ?length_map, ?ramp_length, ?write_col_length; cbn [List.length]; lia);
    cbn [fst snd]; unfold states_of; rewrite ?lookup_set_same, ?Hs; rewrite E;
    (split; [reflexivity|]); unfold write_cols, init_writes; cbn [filter fst snd fold_right Nat.ltb Nat.leb negb].
  all: rewrite ?write_col_length, ?Hr; try reflexivity.
  destruct a as [c r]; cbn in E; subst c; reflexivity.
Qed.

(** With [n_time_steps = 1] and a table of any number of rows (at least 4
    columns wide), [init_all_states] (either variant) broadcasts the single
    OP: every row gets the rotor-side values [cos(dir) * 0*ws + x],
    [sin(dir) * 0*ws + y], [z] and [0*ws] in columns 0 to 3; the other columns
    keep their values. *)
Theorem init_all_states_single_op_broadcast :
  forall (F : Type) (SF : Scalar F) init (o : pyobj F) a ws wd rp ts,
    init = init_all_states4 \/ init = init_all_states6 ->
    lookup o "n_time_steps" = Some (PInt 1) -> lookup o "states" = Some (PArr a) ->
    4 <= ncols a -> Forall (fun r => List.length r = ncols a) (rows a) ->
    let d0 := f_mul (f_of_int 0) ws in
    exists b, init ws wd rp ts o = (set_attr_dict o "states" (PArr b), Ok tt) /\
      ncols b = ncols a /\ nrows b = nrows a /\
      column 0 b = repeat (f_add (f_mul (np_cos (deg2rad wd)) d0) (rp0 rp)) (nrows a) /\
      column 1 b = repeat (f_add (f_mul (np_sin (deg2rad wd)) d0) (rp1 rp)) (nrows a) /\
      column 2 b = repeat (rp2 rp) (nrows a) /\
      column 3 b = repeat d0 (nrows a) /\
      (forall j, 4 <= j -> column j b = column j a).
Proof.
  intros F SF init o a ws wd rp ts Hv Hn Hs Hc Hw d0. rewrite (variant_is_4 init Hv).
  rewrite (init_all_states4_run o 1 a ws wd rp ts Hn Hs).
  change (ramp (Z.to_nat 1) ws) with [d0]. cbn [map].
  unfold nrows in *. do 4 init_step.
  rewrite !broadcast_to_single, !write_col_length.
  eexists. split; [reflexivity|].
  unfold nrows, column; cbn [ncols rows].
  assert (Wd : forall k v (x : list (list F)), Forall (fun r => List.length r = ncols a) x ->
                 Forall (fun r => List.length r = ncols a) (write_col k v x))
    by (intros; apply write_col_widths; auto).
  assert (Lt : forall k (x : list (list F)), k < 4 -> Forall (fun r => List.length r = ncols a) x ->
                 Forall (fun r => k < List.length r) x)
    by (intros; apply (widths_lt _ (ncols a)); auto; lia).
  split; [reflexivity|]. split; [now rewrite !write_col_length|].
  split; [|split; [|split; [|split]]].
  - rewrite !column_write_col_other by lia.
    apply column_write_col_same; [apply Lt; auto; lia|]. apply repeat_length.
  - rewrite !column_write_col_other by lia.
    apply column_write_col_same; [apply Lt; auto; lia|].
    now rewrite repeat_length, write_col_length.
  - rewrite !column_write_col_other by lia.
    apply column_write_col_same; [apply Lt; auto; lia|].
    now rewrite repeat_length, !write_col_length.
  - apply column_write_col_same; [apply Lt; auto; lia|].
    now rewrite repeat_length, !write_col_length.
  - intros j Hj. now rewrite !column_write_col_other by lia.
Qed.

(** Re-initialising a well-shaped chain (either variant) discards the previous
    initialisation: the second call leaves the object, and returns, exactly
    what it would on the object before the first call. *)
Theorem init_all_states_reinit_overwrites :
  forall (F : Type) (SF : Scalar F) init (o : pyobj F) n a ws1 wd1 rpA ts1 ws2 wd2 rpB ts2,
    init = init_all_states4 \/ init = init_all_states6 ->
    chain_ok o n a -> 4 <= ncols a ->
    init ws2 wd2 rpB ts2 (fst (init ws1 wd1 rpA ts1 o)) = init ws2 wd2 rpB ts2 o.
Proof.
  intros F SF init o n a ws1 wd1 rpA ts1 ws2 wd2 rpB ts2 Hv Hok Hc.
  rewrite (variant_is_4 init Hv).
  assert (Hok' := chain_ok_after_init o n a ws1 wd1 rpA Hok).
  rewrite (init_all_states4_spec o n a ws1 wd1 rpA ts1 Hok Hc). cbn [fst].
  rewrite (init_all_states4_spec _ n _ ws2 wd2 rpB ts2 Hok' Hc). cbn [rows ncols].
  rewrite (init_all_states4_spec o n a ws2 wd2 rpB ts2 Hok Hc).
  rewrite set_attr_dict_twice.
  destruct Hok as (_ & _ & Hr & _). unfold nrows in Hr.
  rewrite write_cols_overwrite; [reflexivity | reflexivity | apply init_writes_nodup |].
  repeat constructor; cbn [snd];
    rewrite ?length_map, ?ramp_length, ?repeat_length; lia.
Qed.

(** [FLORIDynOPs4.get_world_coord] does not modify the object and returns the
    table's first three columns: as many rows as the table, [min(3, W)]
    columns, every row that wide when the table's rows are all [W] wide. *)
Theorem get_world_coord_first_three_columns :
  forall (F : Type) (SF : Scalar F) (o : pyobj F) a,
    lookup o "states" = Some (PArr a) ->
    Forall (fun r => List.length r = ncols a) (rows a) ->
    exists b, get_world_coord4 o = (o, Ok b) /\
      nrows b = nrows a /\ ncols b = Nat.min 3 (ncols a) /\
      Forall (fun r => List.length r = ncols b) (rows b) /\
      (forall j, j < 3 -> column j b = column j a).
Proof.
  intros F SF o a Hs Hw.
  eexists. split; [unfold get_world_coord4, get_arr, getattr, bind; rewrite Hs; reflexivity|].
  unfold slice_cols, nrows, column; cbn [rows ncols].
  split; [apply length_map|]. split; [lia|]. split.
  - apply Forall_map. eapply Forall_impl; [|exact Hw]. cbn beta.
    intros r Hr. rewrite length_firstn, skipn_O, Hr. lia.
  - intros j Hj. rewrite map_map. apply map_ext. intros r.
    rewrite skipn_O. now apply nth_firstn_lt.
Qed.


(** Missing attributes: [init_all_states] (either variant) raises
    AttributeError for [n_time_steps] when the object has none, and for
    [states] when it has an integer [n_time_steps] but no [states]; the
    4-state [get_world_coord] raises AttributeError for [states] when there
    is none.  None of these calls modifies the object. *)
Theorem missing_attribute_errors :
  forall (F : Type) (SF : Scalar F) init (o : pyobj F) ws wd rp ts,
    init = init_all_states4 \/ init = init_all_states6 ->
    (lookup o "n_time_steps" = None ->
     init ws wd rp ts o = (o, Err (AttributeError "n_time_steps"))) /\
    (forall z, lookup o "n_time_steps" = Some (PInt z) -> lookup o "states" = None ->
     init ws wd rp ts o = (o, Err (AttributeError "states"))) /\
    (lookup o "states" = None -> get_world_coord4 o = (o, Err (AttributeError "states"))).
Proof.
  intros F SF init o ws wd rp ts Hv. rewrite (variant_is_4 init Hv).
  split; [|split].
  - intros Hn. unfold init_all_states4, get_int, getattr, bind. rewrite Hn. reflexivity.
  - intros z Hn Hs. unfold init_all_states4.
    rewrite (bind_ok _ _ o o z) by (apply get_int_ok; exact Hn).
    unfold bind at 1, assign_col at 1, get_arr, getattr, bind. rewrite Hs. reflexivity.
  - intros Hs. unfold get_world_coord4, get_arr, getattr, bind. rewrite Hs. reflexivity.
Qed.


Lemma init_all_states_only_writes_states_witness :
  lookup (fst (init_all_states4 8%R 0%R (mk_vec3 1%R 2%R 3%R) 1%R (FLORIDynOPs4 3)))
    "n_states" = lookup (FLORIDynOPs4 3 : pyobj R) "n_states".
Proof.
  apply (init_all_states_only_writes_states R real_scalar init_all_states4).
  - left; reflexivity.
  - discriminate.
Defined.

Lemma init_all_states_keeps_layout_witness :
  exists b : ndarray R,
    states_of (fst (init_all_states6 8%R 0%R (mk_vec3 1%R 2%R 3%R) 1%R (set_attr_dict (FLORIDynOPs4 3) "states" (PArr (zeros 2 4)) : pyobj R))) = Some b /\
    ncols b = 4 /\ nrows b = 2 /\
    (forall j, 4 <= j -> column j b = column j (zeros 2 4)) /\
    (Forall (fun r => List.length r = 4) (rows (zeros 2 4 : ndarray R)) ->
     Forall (fun r => List.length r = ncols b) (rows b)).
Proof.
  apply (init_all_states_keeps_layout R real_scalar init_all_states6 (set_attr_dict (FLORIDynOPs4 3) "states" (PArr (zeros 2 4)) : pyobj R) (zeros 2 4)).
  - right; reflexivity.
  - reflexivity.
Defined.

Lemma init_all_states_success_condition_witness :
  (snd (init_all_states4 8%R 0%R (mk_vec3 1%R 2%R 3%R) 1%R (set_attr_dict (FLORIDynOPs4 3) "states" (PArr (zeros 2 4)) : pyobj R)) = Ok tt <->
   4 <= 4 /\ (Z.to_nat 3 = 2 \/ Z.to_nat 3 = 1)).
Proof.
  apply (init_all_states_success_condition R real_scalar init_all_states4 (set_attr_dict (FLORIDynOPs4 3) "states" (PArr (zeros 2 4)) : pyobj R) 3%Z
           (zeros 2 4)).
  - left; reflexivity.
  - reflexivity.
  - reflexivity.
Defined.

Lemma init_all_states_row_mismatch_witness :
  init_all_states4 8%R 0%R (mk_vec3 1%R 2%R 3%R) 1%R (set_attr_dict (FLORIDynOPs4 3) "states" (PArr (zeros 2 4)) : pyobj R) =
  ((set_attr_dict (FLORIDynOPs4 3) "states" (PArr (zeros 2 4)) : pyobj R), Err ValueError).
Proof.
  apply (init_all_states_row_mismatch R real_scalar init_all_states4 (set_attr_dict (FLORIDynOPs4 3) "states" (PArr (zeros 2 4)) : pyobj R) 3%Z
           (zeros 2 4)); try reflexivity.
  - left; reflexivity.
  - cbn; lia.
  - cbn; lia.
  - cbn; lia.
Defined.

Lemma init_all_states_index_error_partial_witness :
  let o := set_attr_dict (FLORIDynOPs4 2) "states" (PArr (zeros 2 3)) in
  snd (init_all_states4 8%R 0%R (mk_vec3 1%R 2%R 3%R) 1%R o) = Err IndexError /\
  states_of (fst (init_all_states4 8%R 0%R (mk_vec3 1%R 2%R 3%R) 1%R o)) =
    Some (mk_ndarray 3 (write_cols (filter (fun jv => fst jv <? 3)
                                      (init_writes 2 8%R 0%R (mk_vec3 1%R 2%R 3%R)))
                                   (rows (zeros 2 3)))).
Proof.
  apply (init_all_states_index_error_partial R real_scalar init_all_states4 _ 2 (zeros 2 3)).
  - left; reflexivity.
  - reflexivity.
  - reflexivity.
  - reflexivity.
  - simpl; lia.
Defined.

Lemma init_all_states_single_op_broadcast_witness :
  let o := set_attr_dict (FLORIDynOPs4 1) "states" (PArr (zeros 3 4)) in
  let d0 := f_mul (f_of_int 0) 8%R in
  exists b : ndarray R,
    init_all_states4 8%R 0%R (mk_vec3 1%R 2%R 3%R) 1%R o = (set_attr_dict o "states" (PArr b), Ok tt) /\
    ncols b = 4 /\ nrows b = 3 /\
    column 0 b = repeat (f_add (f_mul (np_cos (deg2rad 0%R)) d0) 1%R) 3 /\
    column 1 b = repeat (f_add (f_mul (np_sin (deg2rad 0%R)) d0) 2%R) 3 /\
    column 2 b = repeat 3%R 3 /\
    column 3 b = repeat d0 3 /\
    (forall j, 4 <= j -> column j b = column j (zeros 3 4)).
Proof.
  apply (init_all_states_single_op_broadcast R real_scalar init_all_states4 _ (zeros 3 4)).
  - left; reflexivity.
  - reflexivity.
  - reflexivity.
  - simpl; lia.
  - exact (proj2 (proj2 (proj2 (chain_ok_States_init 3 4)))).
Defined.

Lemma init_all_states_reinit_overwrites_witness :
  init_all_states4 5%R 1%R (mk_vec3 0%R 0%R 0%R) 1%R
    (fst (init_all_states4 8%R 0%R (mk_vec3 1%R 2%R 3%R) 1%R (FLORIDynOPs4 3))) =
  init_all_states4 5%R 1%R (mk_vec3 0%R 0%R 0%R) 1%R (FLORIDynOPs4 3).
Proof.
  apply (init_all_states_reinit_overwrites R real_scalar init_all_states4 _ 3 (zeros 3 4)).
  - left; reflexivity.
  - apply chain_ok_States_init.
  - simpl; lia.
Defined.

Lemma get_world_coord_first_three_columns_witness :
  exists b : ndarray R,
    get_world_coord4 (FLORIDynOPs4 2) = (FLORIDynOPs4 2, Ok b) /\
    nrows b = 2 /\ ncols b = Nat.min 3 4 /\
    Forall (fun r => List.length r = ncols b) (rows b) /\
    (forall j, j < 3 -> column j b = column j (zeros 2 4)).
Proof.
  apply (get_world_coord_first_three_columns R real_scalar (FLORIDynOPs4 2) (zeros 2 4)).
  - reflexivity.
  - exact (proj2 (proj2 (proj2 (chain_ok_States_init 2 4)))).
Defined.

Lemma missing_attribute_errors_witness :
  init_all_states6 8%R 0%R (mk_vec3 1%R 2%R 3%R) 1%R ([] : pyobj R) =
    ([], Err (AttributeError "n_time_steps")) /\
  init_all_states6 8%R 0%R (mk_vec3 1%R 2%R 3%R) 1%R [("n_time_steps"%string, PInt 3%Z)] =
    ([("n_time_steps"%string, PInt 3%Z)], Err (AttributeError "states")) /\
  get_world_coord4 ([] : pyobj R) = ([], Err (AttributeError "states")).
Proof.
  split; [|split].
  - apply (missing_attribute_errors R real_scalar init_all_states6 [] 8%R 0%R
             (mk_vec3 1%R 2%R 3%R) 1%R (or_intror eq_refl)). reflexivity.
  - apply (missing_attribute_errors R real_scalar init_all_states6 _ 8%R 0%R
             (mk_vec3 1%R 2%R 3%R) 1%R (or_intror eq_refl)) with (z := 3%Z); reflexivity.
  - apply (missing_attribute_errors R real_scalar init_all_states6 [] 8%R 0%R
             (mk_vec3 1%R 2%R 3%R) 1%R (or_intror eq_refl)). reflexivity.
Defined.

(** After [init_all_states] on a well-shaped 4-state chain, [get_world_coord]
    returns an N x 3 array whose columns are the initial x, y and z
    coordinates of the OPs. *)
Theorem init_then_get_world_coord :
  forall (F : Type) (SF : Scalar F) (o : pyobj F) n a ws wd rp ts,
    chain_ok o n a -> 4 <= ncols a ->
    let o' := fst (init_all_states4 ws wd rp ts o) in
    exists b, get_world_coord4 o' = (o', Ok b) /\
      nrows b = n /\ ncols b = 3 /\
      Forall (fun r => List.length r = 3) (rows b) /\
      column 0 b = map (fun d => f_add (f_mul (np_cos (deg2rad wd)) d) (rp0 rp)) (ramp n ws) /\
      column 1 b = map (fun d => f_add (f_mul (np_sin (deg2rad wd)) d) (rp1 rp)) (ramp n ws) /\
      column 2 b = repeat (rp2 rp) n.
Proof.
  intros F SF o n a ws wd rp ts Hok Hc o'.
  assert (Hok' := chain_ok_after_init o n a ws wd rp Hok).
  unfold o'. rewrite (init_all_states4_spec o n a ws wd rp ts Hok Hc). cbn [fst].
  destruct Hok as (_ & _ & Hr & Hw).
  destruct (init_columns n ws wd rp (rows a) (ncols a) Hr Hc Hw) as (C0 & C1 & C2 & _ & _).
  destruct Hok' as (_ & _ & Hr' & Hw'). cbn [ncols rows] in Hw'.
  eexists. split; [unfold get_world_coord4, get_arr, getattr, bind; rewrite lookup_set_same; reflexivity|].
  unfold slice_cols, nrows, column; cbn [rows ncols].
  rewrite length_map. unfold nrows in Hr'; cbn [rows] in Hr'. rewrite Hr'.
  split; [reflexivity|]. split; [lia|]. split.
  - apply Forall_map. eapply Forall_impl; [|exact Hw']. cbn beta.
    intros r Hl. rewrite length_firstn, skipn_O, Hl. lia.
  - rewrite !map_map.
    assert (Hf : forall j, j < 3 -> forall r : list F,
               nth j (firstn (3 - 0) (skipn 0 r)) f_zero = nth j r f_zero)
      by (intros j Hj r; rewrite skipn_O; now apply nth_firstn_lt).
    rewrite (map_ext _ _ (Hf 0 ltac:(lia))), (map_ext _ _ (Hf 1 ltac:(lia))),
            (map_ext _ _ (Hf 2 ltac:(lia))).
    split; [exact C0|]. split; [exact C1|exact C2].
Qed.

Lemma init_then_get_world_coord_witness :
  let o' := fst (init_all_states4 8%R 0%R (mk_vec3 1%R 2%R 3%R) 1%R (FLORIDynOPs4 3)) in
  exists b : ndarray R, get_world_coord4 o' = (o', Ok b) /\
    nrows b = 3 /\ ncols b = 3 /\
    Forall (fun r => List.length r = 3) (rows b) /\
    column 0 b = map (fun d => f_add (f_mul (np_cos (deg2rad 0%R)) d) 1%R) (ramp 3 8%R) /\
    column 1 b = map (fun d => f_add (f_mul (np_sin (deg2rad 0%R)) d) 2%R) (ramp 3 8%R) /\
    column 2 b = repeat 3%R 3.
Proof.
  apply (init_then_get_world_coord R real_scalar (FLORIDynOPs4 3) 3 (zeros 3 4)).
  - apply chain_ok_States_init.
  - simpl; lia.
Defined.

Lemma Prim2SF_is_finite (x : float) :
  PrimFloat.is_finite x = true ->
  (exists s, Prim2SF x = S754_zero s) \/ (exists s m e, Prim2SF x = S754_finite s m e).
Proof.
  unfold PrimFloat.is_finite, PrimFloat.is_nan, PrimFloat.is_infinity.
  rewrite !FloatAxioms.eqb_spec, FloatAxioms.abs_spec.
  assert (Hi : Prim2SF PrimFloat.infinity = S754_infinity false) by (vm_compute; reflexivity).
  rewrite Hi.
  destruct (Prim2SF x) as [s|s| |s m e]; cbn; try discriminate; eauto.
  destruct s; discriminate.
Qed.

Lemma SFeqb_refl (x : spec_float) : x <> S754_nan -> SFeqb x x = true.
Proof.
  intros Hx. unfold SFeqb, SFcompare.
  destruct x as [[]|[]| |[] m e]; try reflexivity; try (exfalso; now apply Hx);
    rewrite Z.compare_refl, Pos.compare_cont_refl; reflexivity.
Qed.

Lemma not_nan_Prim2SF (x : float) : PrimFloat.is_nan x = false -> Prim2SF x <> S754_nan.
Proof.
  unfold PrimFloat.is_nan. rewrite FloatAxioms.eqb_spec. intros H E. rewrite E in H. discriminate.
Qed.

(** [k * (0 * w) + r == r] in IEEE arithmetic, for finite [k] and [w] and a
    non-NaN [r] *)
Lemma float_zero_offset (k w r : float) :
  PrimFloat.is_finite k = true -> PrimFloat.is_finite w = true -> PrimFloat.is_nan r = false ->
  PrimFloat.eqb (k * (0 * w) + r)%float r = true /\ PrimFloat.eqb (0 * w)%float 0%float = true.
Proof.
  intros Hk Hw Hr.
  assert (H0 : Prim2SF 0%float = S754_zero false) by (vm_compute; reflexivity).
  assert (Hz : exists s, Prim2SF (0 * w)%float = S754_zero s).
  { rewrite FloatAxioms.mul_spec, H0.
    destruct (Prim2SF_is_finite w Hw) as [[s E]|[s [m [e E]]]]; rewrite E; eexists; reflexivity. }
  destruct Hz as [sz Hz].
  assert (Hkz : exists s, Prim2SF (k * (0 * w))%float = S754_zero s).
  { rewrite FloatAxioms.mul_spec, Hz.
    destruct (Prim2SF_is_finite k Hk) as [[s E]|[s [m [e E]]]]; rewrite E; eexists; reflexivity. }
  destruct Hkz as [skz Hkz].
  split.
  - rewrite FloatAxioms.eqb_spec, FloatAxioms.add_spec, Hkz.
    assert (Hn := not_nan_Prim2SF r Hr).
    destruct (Prim2SF r) as [s|s| |s m e] eqn:Er; try (exfalso; now apply Hn).
    + destruct skz, s; reflexivity.
    + destruct s; reflexivity.
    + apply SFeqb_refl. discriminate.
  - rewrite FloatAxioms.eqb_spec, Hz, H0. reflexivity.
Qed.

(** In IEEE binary64, whatever numpy's [cos] and [sin] return as long as it
    is finite, [init_all_states] (either variant) on a well-shaped chain with
    a finite wind speed places the first OP at the rotor: its x and y compare
    equal ([==]) to the rotor's (when these are not NaN), its z is the
    rotor's, and its downstream distance compares equal to 0. *)
Theorem first_op_at_rotor_float64 :
  forall c s : float -> float,
    let SF := float64 c s in
    forall init (o : pyobj float) n a ws wd rp ts a',
      init = init_all_states4 \/ init = init_all_states6 ->
      chain_ok o n a -> 4 <= ncols a -> 0 < n ->
      PrimFloat.is_finite ws = true ->
      PrimFloat.is_finite (c (deg2rad wd)) = true ->
      PrimFloat.is_finite (s (deg2rad wd)) = true ->
      PrimFloat.is_nan (rp0 rp) = false -> PrimFloat.is_nan (rp1 rp) = false ->
      states_of (fst (init ws wd rp ts o)) = Some a' ->
      PrimFloat.eqb (nth 0 (column 0 a') 0%float) (rp0 rp) = true /\
      PrimFloat.eqb (nth 0 (column 1 a') 0%float) (rp1 rp) = true /\
      nth 0 (column 2 a') 0%float = rp2 rp /\
      PrimFloat.eqb (nth 0 (column 3 a') 0%float) 0%float = true.
Proof.
  intros c s SF init o n a ws wd rp ts a' Hv Hok Hc Hn Hws Hcos Hsin Hr0 Hr1 Ha.
  rewrite (variant_is_4 init Hv) in Ha.
  rewrite (init_all_states4_spec o n a ws wd rp ts Hok Hc) in Ha. cbn [fst] in Ha.
  unfold states_of in Ha. rewrite lookup_set_same in Ha.
  apply (f_equal (fun x => match x with Some y => y | None => a' end)) in Ha.
  cbv beta iota in Ha. subst a'.
  destruct Hok as (_ & _ & Hr & Hw).
  destruct (init_columns n ws wd rp (rows a) (ncols a) Hr Hc Hw) as (C0 & C1 & C2 & C3 & _).
  unfold column; cbn [rows]. rewrite C0, C1, C2, C3.
  rewrite !nth_map_ramp by exact Hn. rewrite nth_ramp by exact Hn.
  rewrite nth_indep with (d' := rp2 rp) by (rewrite repeat_length; exact Hn).
  rewrite nth_repeat.
  assert (Z0 : @f_of_int float SF 0 = 0%float) by (vm_compute; reflexivity).
  cbn [f_add f_mul SF float64]. fold SF. rewrite Z0.
  destruct (float_zero_offset _ ws (rp0 rp) Hcos Hws Hr0) as [E0 Ez].
  destruct (float_zero_offset _ ws (rp1 rp) Hsin Hws Hr1) as [E1 _].
  auto.
Qed.

Lemma first_op_at_rotor_float64_witness :
  let SF := float64 poly_cos poly_sin in
  exists a',
    states_of (fst (init_all_states4 8%float 0%float (mk_vec3 100%float 200%float 50%float)
                      1%float (FLORIDynOPs4 3))) = Some a' /\
    PrimFloat.eqb (nth 0 (column 0 a') 0%float) 100%float = true /\
    PrimFloat.eqb (nth 0 (column 1 a') 0%float) 200%float = true /\
    nth 0 (column 2 a') 0%float = 50%float /\
    PrimFloat.eqb (nth 0 (column 3 a') 0%float) 0%float = true.
Proof.
  intros SF. eexists. split; [reflexivity|].
  apply (first_op_at_rotor_float64 poly_cos poly_sin init_all_states4 (FLORIDynOPs4 3) 3
           (zeros 3 4) 8%float 0%float (mk_vec3 100%float 200%float 50%float) 1%float).
  - left; reflexivity.
  - apply chain_ok_States_init.
  - simpl; lia.
  - lia.
  - vm_compute; reflexivity.
  - vm_compute; reflexivity.
  - vm_compute; reflexivity.
  - vm_compute; reflexivity.
  - vm_compute; reflexivity.
  - reflexivity.
Defined.
